(** * The delegated USDT precompile: [xtop_delegate_usdt_contract::execute]

    A shallow embedding of
    [src/xtopcom/xevm_contract_runtime/src/xdelegate_usdt_contract.cpp]
    and the properties of its dispatch, validation order, gas metering,
    authorization and ledger effects.

    The contract is written against three collaborators whose code is not
    part of the translation unit: the ABI decoder, the staged account state
    reached through [state_ctx], and the address utilities and constants of
    the headers.  They are kept as interfaces ([Platform], [AbiDecoder],
    [StateCtx]); [execute] is translated over the interfaces, and a ledger
    written from the specification instantiates [StateCtx] where a property
    depends on what the ledger does. *)

From Stdlib Require Import NArith ZArith List Lia Bool.
From Stdlib.Strings Require Import Byte.
From stdpp Require Import base decidable countable option list gmap.

Local Open Scope N_scope.

(** ** Plain data *)

(** [xbytes_t] is [std::vector<uint8_t>]; [xh256_t] is a 32-byte hash whose
    conversion to bytes is the identity on its content. *)
Definition xbytes_t := list byte.
Definition xh256_t := xbytes_t.

(** [std::error_code]: clear, or set to some error value. *)
Inductive error_code :=
| ec_clear
| ec_set (value : N).

(** [!ec] *)
Definition ec_ok (ec : error_code) : bool :=
  match ec with ec_clear => true | ec_set _ => false end.

(** The thirteen [case] labels of the [switch] on
    [function_selector.method_id]. *)
Inductive erc20_method :=
| method_id_decimals
| method_id_total_supply
| method_id_balance_of
| method_id_transfer
| method_id_transfer_from
| method_id_approve
| method_id_allowance
| method_id_mint
| method_id_burn_from
| method_id_transfer_ownership
| method_id_set_controller
| method_id_owner
| method_id_controller.

#[global] Instance erc20_method_eq_dec : EqDecision erc20_method.
Proof. solve_decision. Defined.

Inductive xtoken_id_t := usdt.

Inductive xallowance_update_op_t := increase | decrease.

(** [precompile_error], the major failure status. *)
Inductive precompile_error := Error | Revert | Fatal.

(** The value stored in [err.minor_status].  The source stores
    [static_cast<uint32_t>] of an enumerator of the enumeration that goes
    with the major status; the enumerator is kept. *)
Inductive minor_status_t :=
| ExitError_OutOfGas
| ExitRevert_Reverted
| ExitFatal_Other
| ExitFatal_NotSupported.

Inductive precompile_output_ExitSucceed := Returned.

(** [xevm_log_t]: emitting address, topics, data. *)
Record xevm_log_t (A : Type) := mk_log {
  log_address : A;
  log_topics : list xh256_t;
  log_data : xbytes_t
}.
Arguments mk_log {A} _ _ _.
Arguments log_address {A} _.
Arguments log_topics {A} _.
Arguments log_data {A} _.

(** [sys_contract_context]: the contract's own address and the caller. *)
Record sys_contract_context (A : Type) := mk_context {
  address : A;
  caller : A
}.
Arguments mk_context {A} _ _.
Arguments address {A} _.
Arguments caller {A} _.

(** [sys_contract_precompile_output] and [sys_contract_precompile_error],
    the two reference parameters [execute] fills. *)
Record sys_contract_precompile_output (A : Type) := mk_output {
  exit_status : precompile_output_ExitSucceed;
  output_cost : N;
  output_bytes : xbytes_t;
  logs : list (xevm_log_t A)
}.
Arguments mk_output {A} _ _ _ _.
Arguments exit_status {A} _.
Arguments output_cost {A} _.
Arguments output_bytes {A} _.
Arguments logs {A} _.

Record sys_contract_precompile_error := mk_error {
  fail_status : precompile_error;
  minor_status : minor_status_t;
  err_cost : N;
  err_output : xbytes_t
}.

(** What one run of [execute] assigns to the two reference parameters.
    Every path of the source assigns to exactly one of them:
    - [set_output]: [output.exit_status], [output.cost], [output.output]
      and, where the path has one, [output.logs.push_back(log)];
    - [set_err_status]: [err.fail_status] and [err.minor_status] only (the
      Fatal and Error paths leave [err.cost] and [err.output] alone);
    - [set_err]: all four fields of [err] (the Revert paths). *)
Inductive assignment (A : Type) :=
| set_output (s : precompile_output_ExitSucceed) (cost : N) (out : xbytes_t)
             (log : option (xevm_log_t A))
| set_err_status (f : precompile_error) (m : minor_status_t)
| set_err (f : precompile_error) (m : minor_status_t) (cost : N) (out : xbytes_t).
Arguments set_output {A} _ _ _ _.
Arguments set_err_status {A} _ _.
Arguments set_err {A} _ _ _ _.

(** The assignment carried out on the caller's two structures. *)
Definition commit {A} (w : assignment A)
    (output : sys_contract_precompile_output A) (err : sys_contract_precompile_error)
  : sys_contract_precompile_output A * sys_contract_precompile_error :=
  match w with
  | set_output s c o l =>
      (mk_output s c o (logs output ++ match l with Some x => [x] | None => [] end), err)
  | set_err_status f m =>
      (output, mk_error f m (err_cost err) (err_output err))
  | set_err f m c o =>
      (output, mk_error f m c o)
  end.

(** ** Byte encodings *)

Definition byte_of_N (n : N) : byte :=
  match Byte.of_N n with Some b => b | None => x00 end.

Fixpoint to_big_endian (len : nat) (v : N) : xbytes_t :=
  match len with
  | O => []
  | S k => to_big_endian k (v / 256) ++ [byte_of_N (v mod 256)]
  end.

(** Modelled from the spec: [top::to_bytes] on an [evm_common::u256], which is
    declared in a header outside [src/]; the specification fixes the result
    as the 32-byte big-endian encoding of the value. *)
Definition to_bytes (v : N) : xbytes_t := to_big_endian 32 v.

(** [xbytes_t result(32, 0)] *)
Definition result32 : xbytes_t := replicate 32 x00.

(** ** The collaborators *)

(** Address utilities and constants that the headers declare. *)
Class Platform := {
  xeth_address_t : Type;
  xaccount_address_t : Type;
  account_eq_dec :: EqDecision xaccount_address_t;
  account_countable :: Countable xaccount_address_t;
  (** [xaccount_address_t::build_from(eth, enum_vaccount_addr_type_secp256k1_evm_user_account)] *)
  account_build_from : xeth_address_t → xaccount_address_t;
  (** [xeth_address_t::build_from(account)] *)
  eth_build_from : xaccount_address_t → xeth_address_t;
  (** [xeth_address_t::to_h256] *)
  to_h256 : xeth_address_t → xh256_t;
  (** [xeth_address_t::zero()] *)
  eth_zero : xeth_address_t;
  evm_usdt_contract_address : xaccount_address_t;
  (** [common::xchain_uuid_t::eth], as the byte [top::from_byte] reads *)
  chain_uuid_eth : byte;
  event_hex_string_transfer : xh256_t;
  event_hex_string_approve : xh256_t;
  event_hex_string_ownership_transferred : xh256_t;
  event_hex_string_controller_set : xh256_t;
  (** the [switch]: which [case] label a 32-bit method id equals, if any *)
  method_case : N → option erc20_method
}.

(** [evm_common::xabi_decoder_t].  A failing call sets [ec]; every caller in
    this file returns at once when [ec] is set, so failure is [None]. *)
Class AbiDecoder `{Platform} := {
  xabi_decoder_t : Type;
  build_from : xbytes_t → option xabi_decoder_t;
  extract_selector : xabi_decoder_t → option (N * xabi_decoder_t);
  decoder_size : xabi_decoder_t → nat;
  extract_address : xabi_decoder_t → option (xeth_address_t * xabi_decoder_t);
  extract_u256 : xabi_decoder_t → option (N * xabi_decoder_t)
}.

(** [abi_decoder.empty()] of a container of parameters. *)
Definition decoder_empty `{AbiDecoder} (d : xabi_decoder_t) : bool :=
  Nat.eqb (decoder_size d) 0.

(** The staged account state behind [state_ctx].  A unit state obtained by
    [load_unit_state(a)] is a handle into the one shared store, so each
    operation takes the store and the account it is invoked on and returns
    the store it leaves. *)
Class StateCtx `{Platform} := {
  xstatectx_t : Type;
  tep_token_balance : xstatectx_t → xaccount_address_t → xtoken_id_t → N;
  (** [from->transfer(token, to, value, ec)] *)
  transfer : xstatectx_t → xaccount_address_t → xtoken_id_t →
             xaccount_address_t → N → xstatectx_t * error_code;
  (** [owner->update_allowance(token, spender, value, op, ec)] *)
  update_allowance : xstatectx_t → xaccount_address_t → xtoken_id_t →
             xaccount_address_t → N → xallowance_update_op_t → xstatectx_t * error_code;
  (** [owner->approve(token, spender, amount, ec)] *)
  approve : xstatectx_t → xaccount_address_t → xtoken_id_t →
             xaccount_address_t → N → xstatectx_t * error_code;
  (** [owner->allowance(token, spender, ec)]; the caller ignores [ec] *)
  allowance : xstatectx_t → xaccount_address_t → xtoken_id_t →
             xaccount_address_t → N;
  tep_token_deposit : xstatectx_t → xaccount_address_t → xtoken_id_t → N → xstatectx_t;
  tep_token_withdraw : xstatectx_t → xaccount_address_t → xtoken_id_t → N → xstatectx_t;
  (** [account->tep_token_owner(chain_uuid)] and its setter overload *)
  tep_token_owner : xstatectx_t → xaccount_address_t → byte → xaccount_address_t;
  set_tep_token_owner : xstatectx_t → xaccount_address_t → byte →
             xaccount_address_t → xstatectx_t * error_code;
  tep_token_controller : xstatectx_t → xaccount_address_t → byte → xaccount_address_t;
  set_tep_token_controller : xstatectx_t → xaccount_address_t → byte →
             xaccount_address_t → xstatectx_t * error_code
}.

(** ** The contract *)

(** What [execute] leaves: the returned [bool], the assignment to the
    reference parameters, and the staged state after the call. *)
Record call_result (A S : Type) := mk_result {
  ret : bool;
  assigned : assignment A;
  state_after : S
}.
Arguments mk_result {A S} _ _ _.
Arguments ret {A S} _.
Arguments assigned {A S} _.
Arguments state_after {A S} _.

(** The [constexpr] gas constants of the [case] blocks. *)
Definition total_supply_gas_cost : N := 2538.
Definition balance_of_gas_cost : N := 3268.
Definition transfer_gas_cost : N := 18446.
Definition transfer_reverted_gas_cost : N := 3662.
Definition transfer_from_gas_cost : N := 18190.
Definition transfer_from_reverted_gas_cost : N := 4326.
Definition approve_gas_cost : N := 18599.
Definition allowance_gas_cost : N := 3987.
Definition mint_gas_cost : N := 3155.
Definition burn_gas_cost : N := 3155.
Definition transfer_ownership_gas_cost : N := 3155.
Definition set_controller_gas_cost : N := 3155.

(** [evm_common::u256 supply{"45257057549529550000000000000"}] *)
Definition supply : N := 45257057549529550000000000000.

Section Contract.
Context {P : Platform} {D : AbiDecoder} {L : StateCtx}.

Abbreviation result_t := (call_result xeth_address_t xstatectx_t).

(** The recurring exits. *)
Definition fatal (m : minor_status_t) (s : xstatectx_t) : result_t :=
  mk_result false (set_err_status Fatal m) s.

Definition out_of_gas (s : xstatectx_t) : result_t :=
  mk_result false (set_err_status Error ExitError_OutOfGas) s.

Definition reverted (b : bool) (cost : N) (out : xbytes_t) (s : xstatectx_t) : result_t :=
  mk_result b (set_err Revert ExitRevert_Reverted cost out) s.

Definition returned (out : xbytes_t) (log : option (xevm_log_t xeth_address_t))
    (s : xstatectx_t) : result_t :=
  mk_result true (set_output Returned 0 out log) s.

Definition case_decimals (s : xstatectx_t) : result_t :=
  returned (to_bytes 18) None s.

Definition case_total_supply (d : xabi_decoder_t) (target_gas : N)
    (s : xstatectx_t) : result_t :=
  if target_gas <? total_supply_gas_cost then out_of_gas s
  else if negb (decoder_empty d) then fatal ExitFatal_Other s
  else returned (to_bytes supply) None s.

Definition case_balance_of (d : xabi_decoder_t) (target_gas : N)
    (s : xstatectx_t) : result_t :=
  if target_gas <? balance_of_gas_cost then out_of_gas s
  else if negb (Nat.eqb (decoder_size d) 1) then fatal ExitFatal_Other s
  else match extract_address d with
  | None => fatal ExitFatal_Other s
  | Some (eth_address, _) =>
      let value := tep_token_balance s (account_build_from eth_address) usdt in
      returned (to_bytes value) None s
  end.

Definition case_transfer (d : xabi_decoder_t) (target_gas : N)
    (context : sys_contract_context xeth_address_t) (is_static : bool)
    (s : xstatectx_t) : result_t :=
  let result := result32 in
  if is_static then reverted false transfer_gas_cost result s
  else if target_gas <? transfer_gas_cost then out_of_gas s
  else if negb (Nat.eqb (decoder_size d) 2) then fatal ExitFatal_Other s
  else match extract_address d with
  | None => fatal ExitFatal_Other s
  | Some (recipient_address, d1) =>
  let recipient_account_address := account_build_from recipient_address in
  match extract_u256 d1 with
  | None => fatal ExitFatal_Other s
  | Some (value, _) =>
  let sender := account_build_from (caller context) in
  let '(s1, ec) := transfer s sender usdt recipient_account_address value in
  if ec_ok ec then
    let topics := [event_hex_string_transfer;
                   to_h256 (caller context);
                   to_h256 recipient_address] in
    let log := mk_log (address context) topics (to_bytes value) in
    returned (<[31%nat := x01]> result) (Some log) s1
  else
    reverted (ec_ok ec) transfer_reverted_gas_cost result s1
  end end.

Definition case_transfer_from (d : xabi_decoder_t) (target_gas : N)
    (context : sys_contract_context xeth_address_t) (is_static : bool)
    (s : xstatectx_t) : result_t :=
  let result := result32 in
  if is_static then reverted false transfer_from_gas_cost result s
  else if target_gas <? transfer_from_gas_cost then out_of_gas s
  else if negb (Nat.eqb (decoder_size d) 3) then fatal ExitFatal_Other s
  else match extract_address d with
  | None => fatal ExitFatal_Other s
  | Some (owner_address, d1) =>
  match extract_address d1 with
  | None => fatal ExitFatal_Other s
  | Some (recipient_address, d2) =>
  let owner_account_address := account_build_from owner_address in
  let recipient_account_address := account_build_from recipient_address in
  match extract_u256 d2 with
  | None => fatal ExitFatal_Other s
  | Some (value, _) =>
  let '(s1, ec1) :=
    update_allowance s owner_account_address usdt
      (account_build_from (caller context)) value decrease in
  let '(s2, ec) :=
    if ec_ok ec1 then
      transfer s1 owner_account_address usdt recipient_account_address value
    else (s1, ec1) in
  if ec_ok ec then
    let topics := [event_hex_string_transfer;
                   to_h256 owner_address;
                   to_h256 recipient_address] in
    let log := mk_log (address context) topics (to_bytes value) in
    returned (<[31%nat := x01]> result) (Some log) s2
  else
    reverted (ec_ok ec) transfer_from_reverted_gas_cost result s2
  end end end.

(** [approve] ends in [return true] on both branches. *)
Definition case_approve (d : xabi_decoder_t) (target_gas : N)
    (context : sys_contract_context xeth_address_t) (is_static : bool)
    (s : xstatectx_t) : result_t :=
  let result := result32 in
  if is_static then reverted false approve_gas_cost result s
  else if target_gas <? approve_gas_cost then out_of_gas s
  else if negb (Nat.eqb (decoder_size d) 2) then fatal ExitFatal_Other s
  else match extract_address d with
  | None => fatal ExitFatal_Other s
  | Some (spender_address, d1) =>
  let spender_account_address := account_build_from spender_address in
  match extract_u256 d1 with
  | None => fatal ExitFatal_Other s
  | Some (amount, _) =>
  let '(s1, ec) :=
    approve s (account_build_from (caller context)) usdt spender_account_address amount in
  if ec_ok ec then
    let topics := [event_hex_string_approve;
                   to_h256 (caller context);
                   to_h256 spender_address] in
    let log := mk_log (address context) topics (to_bytes amount) in
    returned (<[31%nat := x01]> result) (Some log) s1
  else
    reverted true (approve_gas_cost / 2) result s1
  end end.

Definition case_allowance (d : xabi_decoder_t) (target_gas : N)
    (s : xstatectx_t) : result_t :=
  if target_gas <? allowance_gas_cost then out_of_gas s
  else if negb (Nat.eqb (decoder_size d) 2) then fatal ExitFatal_Other s
  else match extract_address d with
  | None => fatal ExitFatal_Other s
  | Some (owner_address, d1) =>
  match extract_address d1 with
  | None => fatal ExitFatal_Other s
  | Some (spender_address, _) =>
      let owner_account_address := account_build_from owner_address in
      let spender_account_address := account_build_from spender_address in
      let result := to_bytes (allowance s owner_account_address usdt spender_account_address) in
      returned result None s
  end end.

(** [mint] and [burnFrom] read the controller before the gas check.  The
    deposit and the withdrawal take no [ec], so [ec] is still clear, as
    the last [extract] left it, when the source tests [!ec]. *)
Definition case_mint (chain_uuid : byte) (d : xabi_decoder_t) (target_gas : N)
    (context : sys_contract_context xeth_address_t) (is_static : bool)
    (s : xstatectx_t) : result_t :=
  let result := result32 in
  if is_static then reverted false mint_gas_cost result s
  else
  let msg_sender := account_build_from (caller context) in
  let token_controller := tep_token_controller s evm_usdt_contract_address chain_uuid in
  if bool_decide (msg_sender ≠ token_controller) then fatal ExitFatal_Other s
  else if target_gas <? mint_gas_cost then out_of_gas s
  else if negb (Nat.eqb (decoder_size d) 2) then fatal ExitFatal_Other s
  else match extract_address d with
  | None => fatal ExitFatal_Other s
  | Some (recver, d1) =>
  let recver_address := account_build_from recver in
  match extract_u256 d1 with
  | None => fatal ExitFatal_Other s
  | Some (value, _) =>
  let ec := ec_clear in
  let s1 := tep_token_deposit s recver_address usdt value in
  if ec_ok ec then
    let topics := [event_hex_string_transfer;
                   to_h256 eth_zero;
                   to_h256 recver] in
    let log := mk_log (address context) topics (to_bytes value) in
    returned (<[31%nat := x01]> result) (Some log) s1
  else
    reverted (ec_ok ec) mint_gas_cost result s1
  end end.

Definition case_burn_from (chain_uuid : byte) (d : xabi_decoder_t) (target_gas : N)
    (context : sys_contract_context xeth_address_t) (is_static : bool)
    (s : xstatectx_t) : result_t :=
  let result := result32 in
  if is_static then reverted false burn_gas_cost result s
  else
  let msg_sender := account_build_from (caller context) in
  let token_controller := tep_token_controller s evm_usdt_contract_address chain_uuid in
  if bool_decide (msg_sender ≠ token_controller) then fatal ExitFatal_Other s
  else if target_gas <? burn_gas_cost then out_of_gas s
  else if negb (Nat.eqb (decoder_size d) 2) then fatal ExitFatal_Other s
  else match extract_address d with
  | None => fatal ExitFatal_Other s
  | Some (burn_from, d1) =>
  let burn_from_address := account_build_from burn_from in
  match extract_u256 d1 with
  | None => fatal ExitFatal_Other s
  | Some (value, _) =>
  let ec := ec_clear in
  let s1 := tep_token_withdraw s burn_from_address usdt value in
  if ec_ok ec then
    let topics := [event_hex_string_transfer;
                   to_h256 burn_from;
                   to_h256 eth_zero] in
    let log := mk_log (address context) topics (to_bytes value) in
    returned (<[31%nat := x01]> result) (Some log) s1
  else
    reverted (ec_ok ec) burn_gas_cost result s1
  end end.

(** The role-change logs are built without a data argument. *)
Definition case_transfer_ownership (chain_uuid : byte) (d : xabi_decoder_t)
    (target_gas : N) (context : sys_contract_context xeth_address_t)
    (is_static : bool) (s : xstatectx_t) : result_t :=
  let result := result32 in
  if is_static then reverted false transfer_ownership_gas_cost result s
  else
  let msg_sender := account_build_from (caller context) in
  let token_owner := tep_token_owner s evm_usdt_contract_address chain_uuid in
  if bool_decide (msg_sender ≠ token_owner) then fatal ExitFatal_Other s
  else if target_gas <? transfer_ownership_gas_cost then out_of_gas s
  else if negb (Nat.eqb (decoder_size d) 1) then fatal ExitFatal_Other s
  else match extract_address d with
  | None => fatal ExitFatal_Other s
  | Some (new_owner, _) =>
  let '(s1, ec) :=
    set_tep_token_owner s evm_usdt_contract_address chain_uuid
      (account_build_from new_owner) in
  if ec_ok ec then
    let topics := [event_hex_string_ownership_transferred;
                   to_h256 (caller context);
                   to_h256 new_owner] in
    let log := mk_log (address context) topics [] in
    returned (<[31%nat := x01]> result) (Some log) s1
  else
    reverted (ec_ok ec) transfer_ownership_gas_cost result s1
  end.

Definition case_set_controller (chain_uuid : byte) (d : xabi_decoder_t)
    (target_gas : N) (context : sys_contract_context xeth_address_t)
    (is_static : bool) (s : xstatectx_t) : result_t :=
  let result := result32 in
  if is_static then reverted false set_controller_gas_cost result s
  else
  let msg_sender := account_build_from (caller context) in
  let token_owner := tep_token_owner s evm_usdt_contract_address chain_uuid in
  if bool_decide (msg_sender ≠ token_owner) then fatal ExitFatal_Other s
  else if target_gas <? set_controller_gas_cost then out_of_gas s
  else if negb (Nat.eqb (decoder_size d) 1) then fatal ExitFatal_Other s
  else match extract_address d with
  | None => fatal ExitFatal_Other s
  | Some (new_controller, _) =>
  let old_controller :=
    eth_build_from (tep_token_controller s evm_usdt_contract_address chain_uuid) in
  let '(s1, ec) :=
    set_tep_token_controller s evm_usdt_contract_address chain_uuid
      (account_build_from new_controller) in
  if ec_ok ec then
    let topics := [event_hex_string_controller_set;
                   to_h256 old_controller;
                   to_h256 new_controller] in
    let log := mk_log (address context) topics [] in
    returned (<[31%nat := x01]> result) (Some log) s1
  else
    reverted (ec_ok ec) set_controller_gas_cost result s1
  end.

Definition case_owner (chain_uuid : byte) (s : xstatectx_t) : result_t :=
  let token_owner := tep_token_owner s evm_usdt_contract_address chain_uuid in
  let owner := eth_build_from token_owner in
  returned (to_h256 owner) None s.

Definition case_controller (chain_uuid : byte) (s : xstatectx_t) : result_t :=
  let controller :=
    eth_build_from (tep_token_controller s evm_usdt_contract_address chain_uuid) in
  returned (to_h256 controller) None s.

(** [xtop_delegate_usdt_contract::execute].  [state_ctx] is the staged
    state [s]; the two reference parameters are the [assigned] component
    of the result. *)
Definition execute (input : xbytes_t) (target_gas : N)
    (context : sys_contract_context xeth_address_t) (is_static : bool)
    (s : xstatectx_t) : result_t :=
  match input with
  | [] => fatal ExitFatal_Other s
  | front :: rest =>
  let chain_uuid := front in
  if negb (Byte.eqb chain_uuid chain_uuid_eth) then fatal ExitFatal_NotSupported s
  else match build_from rest with
  | None => fatal ExitFatal_Other s
  | Some abi_decoder =>
  match extract_selector abi_decoder with
  | None => fatal ExitFatal_Other s
  | Some (method_id, d) =>
  match method_case method_id with
  | Some method_id_decimals => case_decimals s
  | Some method_id_total_supply => case_total_supply d target_gas s
  | Some method_id_balance_of => case_balance_of d target_gas s
  | Some method_id_transfer => case_transfer d target_gas context is_static s
  | Some method_id_transfer_from => case_transfer_from d target_gas context is_static s
  | Some method_id_approve => case_approve d target_gas context is_static s
  | Some method_id_allowance => case_allowance d target_gas s
  | Some method_id_mint => case_mint chain_uuid d target_gas context is_static s
  | Some method_id_burn_from => case_burn_from chain_uuid d target_gas context is_static s
  | Some method_id_transfer_ownership =>
      case_transfer_ownership chain_uuid d target_gas context is_static s
  | Some method_id_set_controller =>
      case_set_controller chain_uuid d target_gas context is_static s
  | Some method_id_owner => case_owner chain_uuid s
  | Some method_id_controller => case_controller chain_uuid s
  | None => fatal ExitFatal_NotSupported s
  end end end end.

End Contract.

(** ** The method table of the specification *)

Inductive abi_type := abi_address | abi_uint256.

Inductive role := role_owner | role_controller.

(** Column "gas". *)
Definition spec_gas (m : erc20_method) : N :=
  match m with
  | method_id_decimals => 0
  | method_id_total_supply => 2538
  | method_id_balance_of => 3268
  | method_id_transfer => 18446
  | method_id_transfer_from => 18190
  | method_id_approve => 18599
  | method_id_allowance => 3987
  | method_id_mint => 3155
  | method_id_burn_from => 3155
  | method_id_transfer_ownership => 3155
  | method_id_set_controller => 3155
  | method_id_owner => 0
  | method_id_controller => 0
  end.

(** Column "static ok", negated: the seven mutating methods. *)
Definition mutating (m : erc20_method) : bool :=
  match m with
  | method_id_transfer | method_id_transfer_from | method_id_approve
  | method_id_mint | method_id_burn_from
  | method_id_transfer_ownership | method_id_set_controller => true
  | _ => false
  end.

(** Column "params". *)
Definition spec_params (m : erc20_method) : list abi_type :=
  match m with
  | method_id_decimals | method_id_total_supply
  | method_id_owner | method_id_controller => []
  | method_id_balance_of => [abi_address]
  | method_id_transfer => [abi_address; abi_uint256]
  | method_id_transfer_from => [abi_address; abi_address; abi_uint256]
  | method_id_approve => [abi_address; abi_uint256]
  | method_id_allowance => [abi_address; abi_address]
  | method_id_mint => [abi_address; abi_uint256]
  | method_id_burn_from => [abi_address; abi_uint256]
  | method_id_transfer_ownership => [abi_address]
  | method_id_set_controller => [abi_address]
  end.

(** Column "effect": which role a privileged method is reserved to. *)
Definition privileged (m : erc20_method) : option role :=
  match m with
  | method_id_mint | method_id_burn_from => Some role_controller
  | method_id_transfer_ownership | method_id_set_controller => Some role_owner
  | _ => None
  end.

(** The methods whose [case] block looks at the parameters at all:
    [decimals], [owner] and [controller] never touch the decoder. *)
Definition reads_parameters (m : erc20_method) : bool :=
  match m with
  | method_id_decimals | method_id_owner | method_id_controller => false
  | _ => true
  end.

Section Vocabulary.
Context {P : Platform} {D : AbiDecoder} {L : StateCtx}.

Abbreviation result_t := (call_result xeth_address_t xstatectx_t).

(** The input reaches the [case] of method [m] with the decoder left at
    [d]: non-empty, chain tag [eth], decoder built, selector extracted and
    equal to the label of [m]. *)
Definition selected (input : xbytes_t) : option (erc20_method * xabi_decoder_t) :=
  match input with
  | [] => None
  | front :: rest =>
      if Byte.eqb front chain_uuid_eth then
        match build_from rest with
        | None => None
        | Some abi_decoder =>
            match extract_selector abi_decoder with
            | None => None
            | Some (method_id, d) =>
                match method_case method_id with
                | Some m => Some (m, d)
                | None => None
                end
            end
        end
      else None
  end.

(** The body of the [switch] for a selected method. *)
Definition dispatch (m : erc20_method) (d : xabi_decoder_t) (target_gas : N)
    (context : sys_contract_context xeth_address_t) (is_static : bool)
    (s : xstatectx_t) : result_t :=
  match m with
  | method_id_decimals => case_decimals s
  | method_id_total_supply => case_total_supply d target_gas s
  | method_id_balance_of => case_balance_of d target_gas s
  | method_id_transfer => case_transfer d target_gas context is_static s
  | method_id_transfer_from => case_transfer_from d target_gas context is_static s
  | method_id_approve => case_approve d target_gas context is_static s
  | method_id_allowance => case_allowance d target_gas s
  | method_id_mint => case_mint chain_uuid_eth d target_gas context is_static s
  | method_id_burn_from => case_burn_from chain_uuid_eth d target_gas context is_static s
  | method_id_transfer_ownership =>
      case_transfer_ownership chain_uuid_eth d target_gas context is_static s
  | method_id_set_controller =>
      case_set_controller chain_uuid_eth d target_gas context is_static s
  | method_id_owner => case_owner chain_uuid_eth s
  | method_id_controller => case_controller chain_uuid_eth s
  end.

(** The address stored for a role on the contract's own account. *)
Definition role_holder (r : role) (s : xstatectx_t) : xaccount_address_t :=
  match r with
  | role_owner => tep_token_owner s evm_usdt_contract_address chain_uuid_eth
  | role_controller => tep_token_controller s evm_usdt_contract_address chain_uuid_eth
  end.

(** The four checks, each as a test that says the check fails. *)
Definition static_violation (m : erc20_method) (is_static : bool) : bool :=
  mutating m && is_static.

Definition gas_short (m : erc20_method) (target_gas : N) : bool :=
  target_gas <? spec_gas m.

Definition unauthorized (m : erc20_method)
    (context : sys_contract_context xeth_address_t) (s : xstatectx_t) : bool :=
  match privileged m with
  | Some r => bool_decide (account_build_from (caller context) ≠ role_holder r s)
  | None => false
  end.

(** Decoding a parameter list of a declared shape: the count has to match
    and each parameter has to extract, in order. *)
Inductive abi_value :=
| v_address (a : xeth_address_t)
| v_uint256 (v : N).

Fixpoint extract_all (sig : list abi_type) (d : xabi_decoder_t)
  : option (list abi_value) :=
  match sig with
  | [] => Some []
  | abi_address :: sig' =>
      match extract_address d with
      | None => None
      | Some (a, d') =>
          match extract_all sig' d' with
          | None => None
          | Some vs => Some (v_address a :: vs)
          end
      end
  | abi_uint256 :: sig' =>
      match extract_u256 d with
      | None => None
      | Some (v, d') =>
          match extract_all sig' d' with
          | None => None
          | Some vs => Some (v_uint256 v :: vs)
          end
      end
  end.

Definition decode_params (sig : list abi_type) (d : xabi_decoder_t)
  : option (list abi_value) :=
  if Nat.eqb (decoder_size d) (length sig) then extract_all sig d else None.

Definition undecodable (m : erc20_method) (d : xabi_decoder_t) : bool :=
  match decode_params (spec_params m) d with
  | None => true
  | Some _ => false
  end.

(** The first failing check in the order the specification calls
    canonical: static context, gas, authorization, parameter decode. *)
Definition canonical_failure (m : erc20_method) (d : xabi_decoder_t)
    (target_gas : N) (context : sys_contract_context xeth_address_t)
    (is_static : bool) (s : xstatectx_t)
  : option (assignment xeth_address_t) :=
  if static_violation m is_static then
    Some (set_err Revert ExitRevert_Reverted (spec_gas m) (replicate 32 x00))
  else if gas_short m target_gas then
    Some (set_err_status Error ExitError_OutOfGas)
  else if unauthorized m context s then
    Some (set_err_status Fatal ExitFatal_Other)
  else if undecodable m d then
    Some (set_err_status Fatal ExitFatal_Other)
  else None.

(** The first failing check in the order of the [case] blocks: static
    context, authorization, gas, parameter decode (the last only in the
    blocks that read the parameters). *)
Definition first_failure (m : erc20_method) (d : xabi_decoder_t)
    (target_gas : N) (context : sys_contract_context xeth_address_t)
    (is_static : bool) (s : xstatectx_t)
  : option (assignment xeth_address_t) :=
  if static_violation m is_static then
    Some (set_err Revert ExitRevert_Reverted (spec_gas m) (replicate 32 x00))
  else if unauthorized m context s then
    Some (set_err_status Fatal ExitFatal_Other)
  else if gas_short m target_gas then
    Some (set_err_status Error ExitError_OutOfGas)
  else if reads_parameters m && undecodable m d then
    Some (set_err_status Fatal ExitFatal_Other)
  else None.

(** A call whose outcome is Success: [execute] filled [output] with
    [Returned]. *)
Definition success_outcome (r : result_t) : Prop :=
  ∃ cost out log, assigned r = set_output Returned cost out log.

(** The call is an [approve] that gets as far as the ledger and whose
    ledger-level [approve] sets [ec]. *)
Definition approve_fails (input : xbytes_t) (target_gas : N)
    (context : sys_contract_context xeth_address_t) (is_static : bool)
    (s : xstatectx_t) : Prop :=
  ∃ d spender d1 amount d2,
    selected input = Some (method_id_approve, d) ∧
    is_static = false ∧
    (target_gas <? approve_gas_cost) = false ∧
    decoder_size d = 2%nat ∧
    extract_address d = Some (spender, d1) ∧
    extract_u256 d1 = Some (amount, d2) ∧
    ec_ok (approve s (account_build_from (caller context)) usdt
             (account_build_from spender) amount).2 = false.

End Vocabulary.

(** ** A ledger written from the specification *)

Module SpecLedger.
Section Ledger.
Context {P : Platform}.

(** Modelled from the spec: the staged account state (the unit-state and
    state-context classes are outside [src/]).  One store per call:
    token balances per account, allowances keyed by (owner, spender), and
    the owner and controller kept per (account, chain tag). *)
Record ledger := mk_ledger {
  balances : gmap xaccount_address_t N;
  allowances : gmap (xaccount_address_t * xaccount_address_t) N;
  owners : gmap (xaccount_address_t * N) xaccount_address_t;
  controllers : gmap (xaccount_address_t * N) xaccount_address_t
}.

(** Modelled from the spec: [balance(token)], the ledger balance of an
    account; an account the store has never seen holds nothing. *)
Definition balance (s : ledger) (a : xaccount_address_t) : N :=
  default 0 (balances s !! a).

Definition set_balance (s : ledger) (a : xaccount_address_t) (v : N) : ledger :=
  mk_ledger (<[a := v]> (balances s)) (allowances s) (owners s) (controllers s).

(** Modelled from the spec: [deposit(token, amount)] credits the account.
    A balance is an [evm_common::u256], so the credit is taken modulo
    2^256. *)
Definition deposit (s : ledger) (a : xaccount_address_t) (v : N) : ledger :=
  set_balance s a ((balance s a + v) mod 2 ^ 256).

(** Modelled from the spec: [withdraw(token, amount)] debits the account;
    balances never go negative, so a withdrawal above the balance changes
    nothing. *)
Definition withdraw (s : ledger) (a : xaccount_address_t) (v : N) : ledger :=
  if balance s a <? v then s else set_balance s a (balance s a - v).

(** Modelled from the spec: [transfer(token, to, amount) -> Result] fails,
    changing nothing, when the balance is below the amount, and otherwise
    debits the source and then credits the destination. *)
Definition ledger_transfer (s : ledger) (from to : xaccount_address_t) (v : N)
  : ledger * error_code :=
  if balance s from <? v then (s, ec_set 1)
  else (deposit (withdraw s from v) to v, ec_clear).

(** Modelled from the spec: [allowance(token, owner, spender) -> amount]. *)
Definition ledger_allowance (s : ledger) (owner spender : xaccount_address_t) : N :=
  default 0 (allowances s !! (owner, spender)).

Definition set_allowance (s : ledger) (owner spender : xaccount_address_t) (v : N)
  : ledger :=
  mk_ledger (balances s) (<[(owner, spender) := v]> (allowances s))
            (owners s) (controllers s).

(** Modelled from the spec:
    [update_allowance(token, owner, op∈{increase,decrease}, amount) -> Result];
    a decrease below zero fails and changes nothing, and an increase is
    taken modulo 2^256 like every [evm_common::u256] sum. *)
Definition ledger_update_allowance (s : ledger) (owner spender : xaccount_address_t)
    (v : N) (op : xallowance_update_op_t) : ledger * error_code :=
  match op with
  | increase =>
      (set_allowance s owner spender
         ((ledger_allowance s owner spender + v) mod 2 ^ 256), ec_clear)
  | decrease =>
      if ledger_allowance s owner spender <? v then (s, ec_set 2)
      else (set_allowance s owner spender (ledger_allowance s owner spender - v),
            ec_clear)
  end.

(** Modelled from the spec: [approve] sets the allowance absolutely. *)
Definition ledger_approve (s : ledger) (owner spender : xaccount_address_t) (v : N)
  : ledger * error_code :=
  (set_allowance s owner spender v, ec_clear).

(** Modelled from the spec: [owner(chain_tag)] / [owner(chain_tag, new)] and
    [controller(chain_tag)] / [controller(chain_tag, new)]; a role that was
    never set reads as the account of the zero address. *)
Definition ledger_owner (s : ledger) (a : xaccount_address_t) (chain : byte)
  : xaccount_address_t :=
  default (account_build_from eth_zero) (owners s !! (a, Byte.to_N chain)).

Definition ledger_set_owner (s : ledger) (a : xaccount_address_t) (chain : byte)
    (new : xaccount_address_t) : ledger * error_code :=
  (mk_ledger (balances s) (allowances s)
             (<[(a, Byte.to_N chain) := new]> (owners s)) (controllers s),
   ec_clear).

Definition ledger_controller (s : ledger) (a : xaccount_address_t) (chain : byte)
  : xaccount_address_t :=
  default (account_build_from eth_zero) (controllers s !! (a, Byte.to_N chain)).

Definition ledger_set_controller (s : ledger) (a : xaccount_address_t) (chain : byte)
    (new : xaccount_address_t) : ledger * error_code :=
  (mk_ledger (balances s) (allowances s) (owners s)
             (<[(a, Byte.to_N chain) := new]> (controllers s)),
   ec_clear).

(** Modelled from the spec: the ledger accessor surface the contract
    consumes, over the store above. *)
#[export] Instance spec_ledger : StateCtx := {|
  xstatectx_t := ledger;
  tep_token_balance s a _ := balance s a;
  transfer s from _ to v := ledger_transfer s from to v;
  update_allowance s owner _ spender v op := ledger_update_allowance s owner spender v op;
  approve s owner _ spender v := ledger_approve s owner spender v;
  allowance s owner _ spender := ledger_allowance s owner spender;
  tep_token_deposit s a _ v := deposit s a v;
  tep_token_withdraw s a _ v := withdraw s a v;
  tep_token_owner := ledger_owner;
  set_tep_token_owner := ledger_set_owner;
  tep_token_controller := ledger_controller;
  set_tep_token_controller := ledger_set_controller
|}.

(** The same ledger behind an accessor whose [approve] reports an error
    and stores nothing; it exercises the failure branch of the [approve]
    case, which the ledger above never takes. *)
Definition refusing_approve : StateCtx := {|
  xstatectx_t := ledger;
  tep_token_balance s a _ := balance s a;
  transfer s from _ to v := ledger_transfer s from to v;
  update_allowance s owner _ spender v op := ledger_update_allowance s owner spender v op;
  approve s owner _ spender v := (s, ec_set 3);
  allowance s owner _ spender := ledger_allowance s owner spender;
  tep_token_deposit s a _ v := deposit s a v;
  tep_token_withdraw s a _ v := withdraw s a v;
  tep_token_owner := ledger_owner;
  set_tep_token_owner := ledger_set_owner;
  tep_token_controller := ledger_controller;
  set_tep_token_controller := ledger_set_controller
|}.

End Ledger.
End SpecLedger.

(** ** A sample platform and decoder, for evaluating the contract *)

Module Sample.

(** A native account address: the user-account tag around the 20-byte
    EVM address, which is kept as a number. *)
Inductive account := T6 (a : N).

#[export] Instance account_eq : EqDecision account.
Proof. solve_decision. Defined.

#[export] Instance account_count : Countable account :=
  inj_countable' (λ x, match x with T6 a => a end) T6
                 (λ x, match x with T6 a => eq_refl end).

Definition from_big_endian (l : xbytes_t) : N :=
  fold_left (λ acc b, acc * 256 + Byte.to_N b) l 0.

(** The 4-byte selectors of the thirteen method signatures. *)
Definition sample_method_case (id : N) : option erc20_method :=
  if id =? 0x313ce567 then Some method_id_decimals
  else if id =? 0x18160ddd then Some method_id_total_supply
  else if id =? 0x70a08231 then Some method_id_balance_of
  else if id =? 0xa9059cbb then Some method_id_transfer
  else if id =? 0x23b872dd then Some method_id_transfer_from
  else if id =? 0x095ea7b3 then Some method_id_approve
  else if id =? 0xdd62ed3e then Some method_id_allowance
  else if id =? 0x40c10f19 then Some method_id_mint
  else if id =? 0x79cc6790 then Some method_id_burn_from
  else if id =? 0xf2fde38b then Some method_id_transfer_ownership
  else if id =? 0x92eefe9b then Some method_id_set_controller
  else if id =? 0x8da5cb5b then Some method_id_owner
  else if id =? 0xf77c4791 then Some method_id_controller
  else None.

(** Sample values for what the headers declare; the event signatures are
    stand-ins, one distinct word per event. *)
#[export] Instance platform : Platform := {|
  xeth_address_t := N;
  xaccount_address_t := account;
  account_build_from := T6;
  eth_build_from := λ x, match x with T6 a => a end;
  to_h256 := to_big_endian 32;
  eth_zero := 0;
  evm_usdt_contract_address := T6 0xff00000000000000000000000000000000000005;
  chain_uuid_eth := x01;
  event_hex_string_transfer := to_big_endian 32 0xe1;
  event_hex_string_approve := to_big_endian 32 0xe2;
  event_hex_string_ownership_transferred := to_big_endian 32 0xe3;
  event_hex_string_controller_set := to_big_endian 32 0xe4;
  method_case := sample_method_case
|}.

(** Modelled from the spec: the ABI decoding engine (outside [src/]).  The
    wire input after the chain tag is a 4-byte selector followed by 32-byte
    argument words; an address is a word whose upper 12 bytes are zero. *)
Record decoder := mk_decoder {
  selector_bytes : xbytes_t;
  words : list xbytes_t
}.

Fixpoint words_of (fuel : nat) (l : xbytes_t) : list xbytes_t :=
  match fuel with
  | O => []
  | S k =>
      match l with
      | [] => []
      | _ => take 32 l :: words_of k (drop 32 l)
      end
  end.

Definition sample_build_from (data : xbytes_t) : option decoder :=
  if (length data <? 4)%nat then None
  else
    let body := drop 4 data in
    if Nat.eqb (length body mod 32) 0
    then Some (mk_decoder (take 4 data) (words_of (length body) body))
    else None.

Definition sample_extract_selector (d : decoder) : option (N * decoder) :=
  Some (from_big_endian (selector_bytes d), d).

Definition sample_extract_u256 (d : decoder) : option (N * decoder) :=
  match words d with
  | [] => None
  | w :: ws => Some (from_big_endian w, mk_decoder (selector_bytes d) ws)
  end.

Definition sample_extract_address (d : decoder) : option (N * decoder) :=
  match words d with
  | [] => None
  | w :: ws =>
      if from_big_endian (take 12 w) =? 0
      then Some (from_big_endian (drop 12 w), mk_decoder (selector_bytes d) ws)
      else None
  end.

#[export] Instance abi : AbiDecoder := {|
  xabi_decoder_t := decoder;
  build_from := sample_build_from;
  extract_selector := sample_extract_selector;
  decoder_size := λ d, length (words d);
  extract_address := sample_extract_address;
  extract_u256 := sample_extract_u256
|}.

(** The wire form of a call: chain tag, selector, argument words. *)
Definition call (selector : N) (args : list N) : xbytes_t :=
  x01 :: to_big_endian 4 selector ++ concat (map (to_big_endian 32) args).

(** The decoder state after the selector of such a call is extracted. *)
Definition args (selector : N) (l : list N) : decoder :=
  mk_decoder (to_big_endian 4 selector) (map (to_big_endian 32) l).

Definition contract : N := 0xff00000000000000000000000000000000000005.
Definition alice : N := 0xa11ce.
Definition bob : N := 0xb0b.
Definition carol : N := 0xca401.

(** [alice] is the caller in the sample calls. *)
Definition by_alice : sys_contract_context N := mk_context contract alice.
Definition by_bob : sys_contract_context N := mk_context contract bob.
Definition by_carol : sys_contract_context N := mk_context contract carol.

(** A sample store: [alice] holds 500 and [bob] 50; [bob] may spend 100 of
    [carol]'s tokens although [carol] holds 50; [carol] is owner and
    controller. *)
Definition store : SpecLedger.ledger :=
  SpecLedger.mk_ledger
    (<[T6 alice := 500]> (<[T6 bob := 50]> (<[T6 carol := 50]> ∅)))
    (<[(T6 carol, T6 bob) := 100]> ∅)
    (<[(T6 contract, 1) := T6 carol]> ∅)
    (<[(T6 contract, 1) := T6 carol]> ∅).

(** A store in which [bob] holds the largest 256-bit amount. *)
Definition brimming : SpecLedger.ledger :=
  SpecLedger.mk_ledger
    (<[T6 alice := 500]> (<[T6 bob := 2 ^ 256 - 1]> ∅)) ∅ ∅ ∅.

End Sample.

(** ** What the exits carry *)

Section Exits.
Context {P : Platform}.

(** The event signature the success branch of a mutating [case] block puts
    in the first topic of its log. *)
Definition event_of (m : erc20_method) : xh256_t :=
  match m with
  | method_id_approve => event_hex_string_approve
  | method_id_transfer_ownership => event_hex_string_ownership_transferred
  | method_id_set_controller => event_hex_string_controller_set
  | _ => event_hex_string_transfer
  end.

(** The cost the failure branch of a mutating [case] block stores in
    [err.cost] when the ledger operation has set [ec]. *)
Definition reverted_cost (m : erc20_method) : N :=
  match m with
  | method_id_transfer => transfer_reverted_gas_cost
  | method_id_transfer_from => transfer_from_reverted_gas_cost
  | method_id_approve => approve_gas_cost / 2
  | method_id_mint => mint_gas_cost
  | method_id_burn_from => burn_gas_cost
  | method_id_transfer_ownership => transfer_ownership_gas_cost
  | method_id_set_controller => set_controller_gas_cost
  | _ => 0
  end.

End Exits.

Section Totals.
Context {P : Platform}.

(** The sum of the token balances a store holds. *)
Definition total_balance (s : SpecLedger.ledger) : N :=
  map_fold (λ _ v acc, v + acc) 0 (SpecLedger.balances s).

End Totals.

(** ** Dispatch and the order of the checks *)

Section Dispatch.
Context {P : Platform} {D : AbiDecoder} {L : StateCtx}.

(** What the three kinds of assignment mean for the caller's [output]:
    a failure leaves it, logs included, as it was, and a success with a log
    pushes exactly that one log. *)
Lemma commit_err_status_keeps_output {A} f m
    (output : sys_contract_precompile_output A) err :
  (commit (set_err_status f m) output err).1 = output.
Proof. reflexivity. Qed.

Lemma commit_err_keeps_output {A} f m cost out
    (output : sys_contract_precompile_output A) err :
  (commit (set_err f m cost out) output err).1 = output.
Proof. reflexivity. Qed.

Lemma commit_output_pushes_one_log {A} st cost out (log : xevm_log_t A)
    (output : sys_contract_precompile_output A) err :
  logs (commit (set_output st cost out (Some log)) output err).1
  = logs output ++ [log] ∧
  (commit (set_output st cost out (Some log)) output err).2 = err.
Proof. split; reflexivity. Qed.

Lemma execute_selected input m d target_gas context is_static s :
  selected input = Some (m, d) →
  execute input target_gas context is_static s
  = dispatch m d target_gas context is_static s.
Proof.
  unfold selected, execute.
  destruct input as [|front rest]; [discriminate|].
  destruct (Byte.eqb front chain_uuid_eth) eqn:Hchain; [|discriminate].
  apply Byte.byte_dec_bl in Hchain as ->.
  simpl negb. cbv iota.
  destruct (build_from rest) as [abi_decoder|]; [|discriminate].
  destruct (extract_selector abi_decoder) as [[method_id d']|]; [|discriminate].
  destruct (method_case method_id) as [m'|]; [|discriminate].
  intros [= -> ->]. destruct m; reflexivity.
Qed.

(** An input that selects no method ends in a Fatal exit. *)
Lemma execute_not_selected input target_gas context is_static s :
  selected input = None →
  ∃ minor, execute input target_gas context is_static s = fatal minor s.
Proof.
  unfold selected, execute.
  destruct input as [|front rest]; [eauto|].
  destruct (Byte.eqb front chain_uuid_eth); simpl; [|eauto].
  destruct (build_from rest) as [abi_decoder|]; [|eauto].
  destruct (extract_selector abi_decoder) as [[method_id d']|]; [|eauto].
  destruct (method_case method_id) as [m'|]; [discriminate|eauto].
Qed.

Lemma ltb_zero (n : N) : (n <? 0) = false.
Proof. apply N.ltb_ge. lia. Qed.

Ltac unfold_cases :=
  unfold case_decimals, case_total_supply, case_balance_of, case_transfer,
    case_transfer_from, case_approve, case_allowance, case_mint, case_burn_from,
    case_transfer_ownership, case_set_controller, case_owner, case_controller,
    decoder_empty, fatal, out_of_gas, reverted, returned, result32;
  unfold total_supply_gas_cost, balance_of_gas_cost, transfer_gas_cost,
    transfer_from_gas_cost, approve_gas_cost, allowance_gas_cost, mint_gas_cost,
    burn_gas_cost, transfer_ownership_gas_cost, set_controller_gas_cost.

(** The first check that fails, in the order of the [case] blocks, decides
    the exit, and the staged state is the one the call started from. *)
Lemma dispatch_first_failure m d target_gas context is_static s w :
  first_failure m d target_gas context is_static s = Some w →
  dispatch m d target_gas context is_static s = mk_result false w s.
Proof.
  unfold first_failure, static_violation, unauthorized, gas_short, undecodable,
    decode_params, dispatch.
  unfold_cases.
  destruct m; simpl; rewrite ?ltb_zero; simpl.
  all: try discriminate.
  all: destruct is_static; simpl.
  all: repeat (case_bool_decide || case_match); intros; simplify_eq/=; reflexivity.
Qed.

(** C5. A call of a mutating method (transfer, transferFrom, approve, mint,
    burnFrom, transferOwnership, setController) with [is_static] set exits
    with Revert(Reverted), the cost of the method in the gas table and a
    buffer of 32 zero bytes, whatever the gas limit, the caller, the
    parameters and the state; nothing is assigned to [output] and the
    staged state is the one the call started from. *)
Theorem static_call_on_mutating_method_reverts
    input m d target_gas context s :
  selected input = Some (m, d) →
  mutating m = true →
  execute input target_gas context true s
  = mk_result false
      (set_err Revert ExitRevert_Reverted (spec_gas m) (replicate 32 x00)) s.
Proof.
  intros Hsel Hmut. rewrite (execute_selected _ _ _ _ _ _ _ Hsel).
  apply dispatch_first_failure.
  unfold first_failure, static_violation. rewrite Hmut. reflexivity.
Qed.

(** C9. A [decimals()] call returns [true] with [output] set to Returned,
    cost 0 and the 32-byte big-endian encoding of 18 (31 zero bytes, then
    0x12), for every gas limit (0 included), caller, static flag,
    parameter stream and state; the state is left as it was. *)
Theorem decimals_returns_18
    input d target_gas context is_static s :
  selected input = Some (method_id_decimals, d) →
  execute input target_gas context is_static s
  = mk_result true
      (set_output Returned 0 (replicate 31 x00 ++ [x12]) None) s.
Proof.
  intros Hsel. rewrite (execute_selected _ _ _ _ _ _ _ Hsel). reflexivity.
Qed.

(** C3, as the code has it. A call with [is_static] clear to [mint] or
    [burnFrom] whose caller is not the stored controller, or to
    [transferOwnership] or [setController] whose caller is not the stored
    owner, exits with Fatal(Other) and leaves the staged state as it was,
    for every gas limit and every parameter stream. *)
Theorem unauthorized_caller_is_fatal
    input m d r target_gas context s :
  selected input = Some (m, d) →
  privileged m = Some r →
  account_build_from (caller context) ≠ role_holder r s →
  execute input target_gas context false s
  = mk_result false (set_err_status Fatal ExitFatal_Other) s.
Proof.
  intros Hsel Hpriv Hne. rewrite (execute_selected _ _ _ _ _ _ _ Hsel).
  apply dispatch_first_failure.
  unfold first_failure, static_violation, unauthorized.
  rewrite andb_false_r, Hpriv, bool_decide_eq_true_2 by exact Hne.
  reflexivity.
Qed.

(** C4, as the code has it. When the gas limit is below the fixed cost of
    the selected method, the call is not a static call of a mutating
    method, and the caller holds the role a privileged method is reserved
    to, the exit is Error(OutOfGas): nothing is assigned to [output], the
    staged state is the one the call started from, and the parameter
    stream plays no part. *)
Theorem gas_shortfall_is_out_of_gas
    input m d target_gas context is_static s :
  selected input = Some (m, d) →
  target_gas < spec_gas m →
  static_violation m is_static = false →
  unauthorized m context s = false →
  execute input target_gas context is_static s
  = mk_result false (set_err_status Error ExitError_OutOfGas) s.
Proof.
  intros Hsel Hgas Hstatic Hauth. rewrite (execute_selected _ _ _ _ _ _ _ Hsel).
  apply dispatch_first_failure.
  unfold first_failure, gas_short. rewrite Hstatic, Hauth.
  apply N.ltb_lt in Hgas. rewrite Hgas. reflexivity.
Qed.

(** C2, as the code has it. The checks of a selected method are decided in
    the order static context, authorization, gas, parameter decode: the
    first one that fails fixes the exit whatever the later ones would say,
    and the staged state differs from the initial one only when none of
    them fails. *)
Theorem checks_run_static_authorization_gas_decode
    input m d target_gas context is_static s :
  selected input = Some (m, d) →
  let r := execute input target_gas context is_static s in
  (static_violation m is_static = true →
     r = mk_result false
           (set_err Revert ExitRevert_Reverted (spec_gas m) (replicate 32 x00)) s) ∧
  (static_violation m is_static = false →
   unauthorized m context s = true →
     r = mk_result false (set_err_status Fatal ExitFatal_Other) s) ∧
  (static_violation m is_static = false →
   unauthorized m context s = false →
   gas_short m target_gas = true →
     r = mk_result false (set_err_status Error ExitError_OutOfGas) s) ∧
  (static_violation m is_static = false →
   unauthorized m context s = false →
   gas_short m target_gas = false →
   reads_parameters m = true →
   undecodable m d = true →
     r = mk_result false (set_err_status Fatal ExitFatal_Other) s) ∧
  (state_after r ≠ s →
     static_violation m is_static = false ∧
     unauthorized m context s = false ∧
     gas_short m target_gas = false ∧
     (reads_parameters m = true → undecodable m d = false)).
Proof.
  intros Hsel r. subst r. rewrite (execute_selected _ _ _ _ _ _ _ Hsel).
  pose proof (dispatch_first_failure m d target_gas context is_static s) as Hff.
  unfold first_failure in Hff.
  split; [|split; [|split; [|split]]].
  - intros H1. apply Hff. rewrite H1. reflexivity.
  - intros H1 H2. apply Hff. rewrite H1, H2. reflexivity.
  - intros H1 H2 H3. apply Hff. rewrite H1, H2, H3. reflexivity.
  - intros H1 H2 H3 H4 H5. apply Hff. rewrite H1, H2, H3, H4, H5. reflexivity.
  - intros Hne.
    assert (Hnone : ∀ w, first_failure m d target_gas context is_static s ≠ Some w).
    { intros w Hw. apply Hne.
      rewrite (dispatch_first_failure _ _ _ _ _ _ _ Hw). reflexivity. }
    unfold first_failure in Hnone.
    destruct (static_violation m is_static); [exfalso; eapply Hnone; reflexivity|].
    destruct (unauthorized m context s); [exfalso; eapply Hnone; reflexivity|].
    destruct (gas_short m target_gas); [exfalso; eapply Hnone; reflexivity|].
    repeat (split; [reflexivity|]).
    intros Hreads. rewrite Hreads in Hnone.
    destruct (undecodable m d); [exfalso; eapply Hnone; reflexivity|reflexivity].
Qed.

(** C6, as the code has it. For every method but [decimals], [owner] and
    [controller], a call that passes the static, authorization and gas
    checks and whose parameters do not decode (wrong count, or an
    extraction that fails) exits with Fatal(Other) and leaves the state as
    it was; [decimals], [owner] and [controller] never look at the
    parameters and return [true] with a Returned output for every
    parameter stream. *)
Theorem undecodable_parameters
    input m d target_gas context is_static s :
  selected input = Some (m, d) →
  let r := execute input target_gas context is_static s in
  (reads_parameters m = true →
   static_violation m is_static = false →
   unauthorized m context s = false →
   gas_short m target_gas = false →
   undecodable m d = true →
     r = mk_result false (set_err_status Fatal ExitFatal_Other) s) ∧
  (reads_parameters m = false →
     ret r = true ∧ success_outcome r ∧ state_after r = s).
Proof.
  intros Hsel r. subst r. rewrite (execute_selected _ _ _ _ _ _ _ Hsel). split.
  - intros H1 H2 H3 H4 H5. apply dispatch_first_failure.
    unfold first_failure. rewrite H1, H2, H3, H4, H5. reflexivity.
  - unfold success_outcome.
    destruct m; try discriminate; intros _; simpl; eauto 10.
Qed.

End Dispatch.

(** ** The returned flag and the outcome *)

Section Outcome.
Context {P : Platform} {D : AbiDecoder} {L : StateCtx}.

Ltac unfold_cases :=
  unfold case_decimals, case_total_supply, case_balance_of, case_transfer,
    case_transfer_from, case_approve, case_allowance, case_mint, case_burn_from,
    case_transfer_ownership, case_set_controller, case_owner, case_controller,
    decoder_empty, fatal, out_of_gas, reverted, returned, result32.

Lemma fatal_not_success minor (s : xstatectx_t) :
  ret (fatal minor s) = true ↔ success_outcome (fatal minor s).
Proof.
  unfold success_outcome. simpl. split; [discriminate|].
  intros (? & ? & ? & ?). discriminate.
Qed.

Lemma dispatch_ret_success m d target_gas context is_static s :
  m ≠ method_id_approve →
  let r := dispatch m d target_gas context is_static s in
  ret r = true ↔ success_outcome r.
Proof.
  intros Hm. unfold success_outcome, dispatch. unfold_cases.
  destruct m; try congruence; simpl.
  all: repeat case_match; simpl; simplify_eq/=.
  all: split; [intros ?; try discriminate; eauto | intros (? & ? & ? & ?); try discriminate; try reflexivity; try congruence].
Qed.

Lemma approve_ret_success d target_gas context is_static s :
  let r := case_approve d target_gas context is_static s in
  (∀ spender d1 amount d2,
     is_static = false →
     (target_gas <? approve_gas_cost) = false →
     decoder_size d = 2%nat →
     extract_address d = Some (spender, d1) →
     extract_u256 d1 = Some (amount, d2) →
     ec_ok (approve s (account_build_from (caller context)) usdt
              (account_build_from spender) amount).2 = true) →
  ret r = true ↔ success_outcome r.
Proof.
  intros r Hok. subst r. unfold success_outcome. unfold_cases.
  destruct is_static; simpl.
  { split; [discriminate | intros (? & ? & ? & ?); discriminate]. }
  destruct (target_gas <? approve_gas_cost) eqn:Hgas; simpl.
  { split; [discriminate | intros (? & ? & ? & ?); discriminate]. }
  destruct (Nat.eqb (decoder_size d) 2) eqn:Hsize; simpl;
    [|split; [discriminate | intros (? & ? & ? & ?); discriminate]].
  apply Nat.eqb_eq in Hsize.
  destruct (extract_address d) as [[spender d1]|] eqn:Ha;
    [|split; [discriminate | intros (? & ? & ? & ?); discriminate]].
  destruct (extract_u256 d1) as [[amount d2]|] eqn:Hv;
    [|split; [discriminate | intros (? & ? & ? & ?); discriminate]].
  specialize (Hok spender d1 amount d2 eq_refl eq_refl Hsize eq_refl Hv).
  destruct (approve _ _ _ _ _) as [s1 ec]. simpl in Hok. rewrite Hok.
  simpl. split; eauto.
Qed.

(** C10. The returned [bool] is [true] exactly when the call filled
    [output] with a Returned outcome, on every input but one kind: an
    [approve] that reaches the ledger and whose ledger-level [approve] sets
    [ec] returns [true] although it filled [err] with Revert(Reverted),
    cost 9299 (half of 18599) and 32 zero bytes, and filled no output. *)
Theorem returned_flag_and_outcome
    input target_gas context is_static s :
  let r := execute input target_gas context is_static s in
  (approve_fails input target_gas context is_static s →
     ret r = true ∧
     (∃ s1, r = mk_result true
                  (set_err Revert ExitRevert_Reverted 9299 (replicate 32 x00)) s1) ∧
     ¬ success_outcome r) ∧
  (¬ approve_fails input target_gas context is_static s →
     (ret r = true ↔ success_outcome r)).
Proof.
  intros r. subst r. split.
  - intros (d & spender & d1 & amount & d2 & Hsel & -> & Hgas & Hsize & Ha & Hv & Hec).
    rewrite (execute_selected _ _ _ _ _ _ _ Hsel). simpl.
    unfold case_approve. rewrite Hgas, Hsize, Ha, Hv. simpl.
    destruct (approve _ _ _ _ _) as [s1 ec]. simpl in Hec. rewrite Hec.
    unfold reverted, success_outcome. simpl.
    split; [reflexivity|]. split; [eauto|].
    intros (? & ? & ? & ?). discriminate.
  - intros Hnot.
    destruct (selected input) as [[m d]|] eqn:Hsel.
    + rewrite (execute_selected _ _ _ _ _ _ _ Hsel).
      destruct (decide (m = method_id_approve)) as [->|Hm].
      * apply approve_ret_success.
        intros spender d1 amount d2 Hst Hgas Hsize Ha Hv.
        apply not_false_iff_true. intros Hec. apply Hnot.
        exists d, spender, d1, amount, d2. auto 10.
      * apply dispatch_ret_success. exact Hm.
    + destruct (execute_not_selected input target_gas context is_static s Hsel)
        as [minor ->].
      apply fatal_not_success.
Qed.
End Outcome.

(** ** Ledger effects, on the ledger written from the specification *)

Section LedgerEffects.
Context {P : Platform} {D : AbiDecoder}.
Import SpecLedger.

Abbreviation run := (execute (L := spec_ledger)).

Lemma balance_set_balance (s : ledger) a v b :
  balance (set_balance s a v) b = if decide (b = a) then v else balance s b.
Proof.
  unfold balance, set_balance. simpl.
  destruct (decide (b = a)) as [->|Hne].
  - rewrite lookup_insert_eq. reflexivity.
  - rewrite lookup_insert_ne by congruence. reflexivity.
Qed.

Lemma balance_deposit (s : ledger) a v b :
  balance (deposit s a v) b
  = if decide (b = a) then (balance s a + v) mod 2 ^ 256 else balance s b.
Proof. unfold deposit. apply balance_set_balance. Qed.

Lemma balance_withdraw (s : ledger) a v b :
  v ≤ balance s a →
  balance (withdraw s a v) b = if decide (b = a) then balance s a - v else balance s b.
Proof.
  intros Hle. unfold withdraw.
  destruct (balance s a <? v) eqn:Hlt; [apply N.ltb_lt in Hlt; lia|].
  apply balance_set_balance.
Qed.

Lemma balance_set_allowance (s : ledger) o sp v a :
  balance (set_allowance s o sp v) a = balance s a.
Proof. reflexivity. Qed.

Lemma allowance_set_allowance (s : ledger) o sp v :
  ledger_allowance (set_allowance s o sp v) o sp = v.
Proof. unfold ledger_allowance, set_allowance. simpl. by rewrite lookup_insert_eq. Qed.

(** What a successful decode of two and of three parameters says about the
    decoder. *)
Lemma decode_address_uint256 (d : xabi_decoder_t) a v :
  decode_params [abi_address; abi_uint256] d = Some [v_address a; v_uint256 v] →
  Nat.eqb (decoder_size d) 2 = true ∧
  ∃ d1 d2, extract_address d = Some (a, d1) ∧ extract_u256 d1 = Some (v, d2).
Proof.
  unfold decode_params. simpl.
  destruct (Nat.eqb (decoder_size d) 2); [|discriminate].
  destruct (extract_address d) as [[a' d1]|] eqn:Ha; [|discriminate].
  destruct (extract_u256 d1) as [[v' d2]|] eqn:Hv; [|discriminate].
  intros [= -> ->]. split; [reflexivity|]. exists d1, d2. split; [reflexivity|assumption].
Qed.

Lemma decode_address_address_uint256 (d : xabi_decoder_t) a b v :
  decode_params [abi_address; abi_address; abi_uint256] d
  = Some [v_address a; v_address b; v_uint256 v] →
  Nat.eqb (decoder_size d) 3 = true ∧
  ∃ d1 d2 d3, extract_address d = Some (a, d1) ∧ extract_address d1 = Some (b, d2) ∧
              extract_u256 d2 = Some (v, d3).
Proof.
  unfold decode_params. simpl.
  destruct (Nat.eqb (decoder_size d) 3); [|discriminate].
  destruct (extract_address d) as [[a' d1]|] eqn:Ha; [|discriminate].
  destruct (extract_address d1) as [[b' d2]|] eqn:Hb; [|discriminate].
  destruct (extract_u256 d2) as [[v' d3]|] eqn:Hv; [|discriminate].
  intros [= -> -> ->]. split; [reflexivity|]. exists d1, d2, d3.
  split; [reflexivity|]. split; assumption.
Qed.

(** C8, as the code has it. A [transfer] call with [is_static] clear and a
    gas limit of at least 18446 whose parameters decode to (to, amt), made
    when the caller's balance is below amt, exits with Revert(Reverted),
    the failure cost 3662 (not the success cost 18446) and 32 zero bytes;
    nothing is assigned to [output], so no log is emitted, and the ledger
    is the one the call started from. *)
Theorem transfer_above_balance_reverts
    input d to amt target_gas context (s : ledger) :
  selected input = Some (method_id_transfer, d) →
  decode_params (spec_params method_id_transfer) d
  = Some [v_address to; v_uint256 amt] →
  18446 ≤ target_gas →
  balance s (account_build_from (caller context)) < amt →
  run input target_gas context false s
  = mk_result false
      (set_err Revert ExitRevert_Reverted 3662 (replicate 32 x00)) s.
Proof.
  intros Hsel Hdec Hgas Hbal.
  rewrite (execute_selected _ _ _ _ _ _ _ Hsel). simpl.
  apply decode_address_uint256 in Hdec as (Hsize & d1 & d2 & Ha & Hv).
  unfold case_transfer, transfer_gas_cost.
  destruct (target_gas <? 18446) eqn:Hlt; [apply N.ltb_lt in Hlt; lia|].
  rewrite Hsize, Ha, Hv. simpl.
  unfold ledger_transfer. apply N.ltb_lt in Hbal. rewrite Hbal. reflexivity.
Qed.

(** The [transfer] case hands the movement to the ledger as it is: the
    sender is the caller's account, the recipient the account of the first
    parameter, also when the two are the same account. *)
Lemma transfer_call_runs_ledger_transfer
    {L : StateCtx} input d to amt target_gas context s :
  selected input = Some (method_id_transfer, d) →
  decode_params (spec_params method_id_transfer) d
  = Some [v_address to; v_uint256 amt] →
  18446 ≤ target_gas →
  let moved := transfer s (account_build_from (caller context)) usdt
                 (account_build_from to) amt in
  let r := execute input target_gas context false s in
  ret r = ec_ok moved.2 ∧ state_after r = moved.1.
Proof.
  intros Hsel Hdec Hgas moved r. subst r moved.
  rewrite (execute_selected _ _ _ _ _ _ _ Hsel). simpl.
  apply decode_address_uint256 in Hdec as (Hsize & d1 & d2 & Ha & Hv).
  apply N.ltb_ge in Hgas.
  unfold case_transfer, transfer_gas_cost. rewrite Hgas, Hsize, Ha, Hv. simpl.
  destruct (transfer _ _ _ _ _) as [s1 ec]. simpl.
  destruct (ec_ok ec) eqn:Hec; simpl; rewrite ?Hec; split; reflexivity.
Qed.

(** No ledger can both lower and raise one balance by a positive amount:
    for a transfer of an account to itself the two changes of a transfer
    exclude one another, whatever the ledger does with it. *)
Lemma self_transfer_cannot_move_both
    {L : StateCtx} (s s' : xstatectx_t) a amt :
  0 < amt →
  amt ≤ tep_token_balance s a usdt →
  ¬ (tep_token_balance s' a usdt = tep_token_balance s a usdt - amt ∧
     tep_token_balance s' a usdt = tep_token_balance s a usdt + amt).
Proof. intros Hpos Hle [H1 H2]. lia. Qed.

(** C7, as the code has it. A [transfer(to, amt)] that returns [true] had
    amt within the caller's balance.  When the recipient is an account other
    than the caller and its balance plus amt fits in 256 bits, the caller's
    balance is lower by amt, the recipient's higher by amt, and the sum of
    the two is kept.  In every case no third balance changes, the output is
    the 32-byte word ending in 1, and exactly one log is pushed: topics
    [Transfer signature, caller, recipient], data the 32-byte encoding of
    amt. *)
Theorem successful_transfer_moves_balance
    input d to amt target_gas context is_static (s : ledger) :
  selected input = Some (method_id_transfer, d) →
  decode_params (spec_params method_id_transfer) d
  = Some [v_address to; v_uint256 amt] →
  let r := run input target_gas context is_static s in
  let sender := account_build_from (caller context) in
  let recipient := account_build_from to in
  ret r = true →
  amt ≤ balance s sender ∧
  (sender ≠ recipient →
   balance s recipient + amt < 2 ^ 256 →
     balance (state_after r) sender = balance s sender - amt ∧
     balance (state_after r) recipient = balance s recipient + amt ∧
     balance (state_after r) sender + balance (state_after r) recipient
     = balance s sender + balance s recipient) ∧
  (∀ a, a ≠ sender → a ≠ recipient →
     balance (state_after r) a = balance s a) ∧
  assigned r
  = set_output Returned 0 (replicate 31 x00 ++ [x01])
      (Some (mk_log (address context)
               [event_hex_string_transfer; to_h256 (caller context); to_h256 to]
               (to_bytes amt))).
Proof.
  intros Hsel Hdec r sender recipient. subst r.
  rewrite (execute_selected _ _ _ _ _ _ _ Hsel). simpl.
  apply decode_address_uint256 in Hdec as (Hsize & d1 & d2 & Ha & Hv).
  unfold case_transfer.
  destruct is_static; [discriminate|].
  destruct (target_gas <? transfer_gas_cost); [discriminate|].
  rewrite Hsize, Ha, Hv. simpl.
  unfold ledger_transfer. fold sender recipient.
  destruct (balance s sender <? amt) eqn:Hlt; [discriminate|].
  apply N.ltb_ge in Hlt. simpl. intros _.
  assert (Hafter : ∀ a, balance (deposit (withdraw s sender amt) recipient amt) a
                        = if decide (a = recipient)
                          then ((if decide (recipient = sender)
                                 then balance s sender - amt
                                 else balance s recipient) + amt) mod 2 ^ 256
                          else if decide (a = sender)
                               then balance s sender - amt
                               else balance s a).
  { intros a. rewrite balance_deposit.
    rewrite !(balance_withdraw s sender amt) by exact Hlt. reflexivity. }
  split; [exact Hlt|].
  split; [|split].
  - intros Hne Hfit. rewrite !Hafter.
    repeat case_decide; try congruence.
    rewrite (N.mod_small _ _ Hfit).
    split; [reflexivity|]. split; [reflexivity|]. lia.
  - intros a Hs Hr. rewrite Hafter.
    repeat case_decide; try congruence.
  - reflexivity.
Qed.

(** C1, as the code has it. A [transferFrom(owner, to, value)] that passes
    the static, gas and decode checks debits the caller's allowance on the
    owner and then transfers, as two ledger calls.  With an allowance below
    value nothing changes and the exit is Revert(Reverted) with cost 4326
    and no log.  With allowance and owner balance both sufficient the
    debit and the transfer are both applied and one Transfer log is
    pushed.  With a sufficient allowance and an owner balance below value
    the exit is again Revert(Reverted) with cost 4326 and no log, the
    balances are as before, and the allowance stays debited in the staged
    state the call leaves. *)
Theorem transfer_from_two_steps
    input d owner to value target_gas context (s : ledger) :
  selected input = Some (method_id_transfer_from, d) →
  decode_params (spec_params method_id_transfer_from) d
  = Some [v_address owner; v_address to; v_uint256 value] →
  18190 ≤ target_gas →
  let r := run input target_gas context false s in
  let holder := account_build_from owner in
  let recipient := account_build_from to in
  let spender := account_build_from (caller context) in
  let debited :=
    set_allowance s holder spender (ledger_allowance s holder spender - value) in
  (ledger_allowance s holder spender < value →
     r = mk_result false
           (set_err Revert ExitRevert_Reverted 4326 (replicate 32 x00)) s) ∧
  (value ≤ ledger_allowance s holder spender →
   value ≤ balance s holder →
     r = mk_result true
           (set_output Returned 0 (replicate 31 x00 ++ [x01])
              (Some (mk_log (address context)
                       [event_hex_string_transfer; to_h256 owner; to_h256 to]
                       (to_bytes value))))
           (deposit (withdraw debited holder value) recipient value)) ∧
  (value ≤ ledger_allowance s holder spender →
   balance s holder < value →
     r = mk_result false
           (set_err Revert ExitRevert_Reverted 4326 (replicate 32 x00)) debited ∧
     ledger_allowance (state_after r) holder spender
     = ledger_allowance s holder spender - value ∧
     (∀ a, balance (state_after r) a = balance s a)).
Proof.
  intros Hsel Hdec Hgas r holder recipient spender debited. subst r.
  rewrite (execute_selected _ _ _ _ _ _ _ Hsel). simpl.
  apply decode_address_address_uint256 in Hdec
    as (Hsize & d1 & d2 & d3 & Ha & Hb & Hv).
  unfold case_transfer_from, transfer_from_gas_cost.
  destruct (target_gas <? 18190) eqn:Hlt; [apply N.ltb_lt in Hlt; lia|].
  rewrite Hsize, Ha, Hb, Hv. simpl.
  unfold ledger_update_allowance. fold holder recipient spender.
  split; [|split].
  - intros Hal. apply N.ltb_lt in Hal. rewrite Hal. reflexivity.
  - intros Hal Hbal. apply N.ltb_ge in Hal. rewrite Hal. simpl.
    fold debited. unfold ledger_transfer.
    change (balance debited holder) with (balance s holder).
    apply N.ltb_ge in Hbal. rewrite Hbal. reflexivity.
  - intros Hal Hbal. apply N.ltb_ge in Hal. rewrite Hal. simpl.
    fold debited. unfold ledger_transfer.
    change (balance debited holder) with (balance s holder).
    apply N.ltb_lt in Hbal. rewrite Hbal. simpl.
    split; [reflexivity|]. split; [apply allowance_set_allowance|].
    intros a. apply balance_set_allowance.
Qed.
End LedgerEffects.

(** ** The contract on sample calls *)

Section Samples.
Import Sample SpecLedger.

Abbreviation sample_run :=
  (execute (P := platform) (D := abi) (L := spec_ledger)).

Abbreviation zeros32 := (replicate 32 x00).

(** A static [transfer] is turned away with the full cost of [transfer]. *)
Lemma static_call_on_mutating_method_reverts_witness :
  sample_run (call 0xa9059cbb [bob; 100]) 20000 by_alice true store
  = mk_result false (set_err Revert ExitRevert_Reverted 18446 zeros32) store.
Proof.
  apply (static_call_on_mutating_method_reverts
           (P := platform) (D := abi) (L := spec_ledger)
           (call 0xa9059cbb [bob; 100]) method_id_transfer
           (args 0xa9059cbb [bob; 100])).
  - reflexivity.
  - reflexivity.
Defined.

(** [decimals()] with a gas limit of 0. *)
Lemma decimals_returns_18_witness :
  sample_run (call 0x313ce567 []) 0 by_alice false store
  = mk_result true (set_output Returned 0 (replicate 31 x00 ++ [x12]) None) store.
Proof.
  apply (decimals_returns_18 (P := platform) (D := abi) (L := spec_ledger)
           (call 0x313ce567 []) (args 0x313ce567 [])).
  reflexivity.
Defined.

(** [mint] by [alice], who is not the controller, with ample gas. *)
Lemma unauthorized_caller_is_fatal_witness :
  sample_run (call 0x40c10f19 [alice; 100]) 5000 by_alice false store
  = mk_result false (set_err_status Fatal ExitFatal_Other) store.
Proof.
  apply (unauthorized_caller_is_fatal
           (P := platform) (D := abi) (L := spec_ledger)
           (call 0x40c10f19 [alice; 100]) method_id_mint
           (args 0x40c10f19 [alice; 100]) role_controller).
  - reflexivity.
  - reflexivity.
  - vm_compute. discriminate.
Defined.

(** [mint] by the controller with a gas limit of 100. *)
Lemma gas_shortfall_is_out_of_gas_witness :
  sample_run (call 0x40c10f19 [alice; 100]) 100 by_carol false store
  = mk_result false (set_err_status Error ExitError_OutOfGas) store.
Proof.
  apply (gas_shortfall_is_out_of_gas
           (P := platform) (D := abi) (L := spec_ledger)
           (call 0x40c10f19 [alice; 100]) method_id_mint
           (args 0x40c10f19 [alice; 100])).
  - reflexivity.
  - reflexivity.
  - reflexivity.
  - reflexivity.
Defined.

(** [mint] by [alice] with a gas limit of 0: the authorization check
    speaks before the gas check. *)
Lemma checks_run_static_authorization_gas_decode_witness :
  sample_run (call 0x40c10f19 [alice; 100]) 0 by_alice false store
  = mk_result false (set_err_status Fatal ExitFatal_Other) store.
Proof.
  refine (proj1 (proj2 (checks_run_static_authorization_gas_decode
           (P := platform) (D := abi) (L := spec_ledger)
           (call 0x40c10f19 [alice; 100]) method_id_mint
           (args 0x40c10f19 [alice; 100]) 0 by_alice false store _)) _ _).
  - reflexivity.
  - reflexivity.
  - reflexivity.
Defined.

(** [allowance] with one parameter where two are declared. *)
Lemma undecodable_parameters_witness :
  sample_run (call 0xdd62ed3e [carol]) 5000 by_alice false store
  = mk_result false (set_err_status Fatal ExitFatal_Other) store.
Proof.
  refine (proj1 (undecodable_parameters
           (P := platform) (D := abi) (L := spec_ledger)
           (call 0xdd62ed3e [carol]) method_id_allowance
           (args 0xdd62ed3e [carol]) 5000 by_alice false store _) _ _ _ _ _).
  - reflexivity.
  - reflexivity.
  - reflexivity.
  - reflexivity.
  - reflexivity.
  - reflexivity.
Defined.

(** [approve] on a ledger that refuses it. *)
Lemma returned_flag_and_outcome_witness :
  let r := execute (P := platform) (D := abi) (L := refusing_approve)
             (call 0x095ea7b3 [bob; 100]) 20000 by_alice false store in
  ret r = true ∧
  (∃ s1, r = mk_result true (set_err Revert ExitRevert_Reverted 9299 zeros32) s1) ∧
  ¬ success_outcome r.
Proof.
  apply (proj1 (returned_flag_and_outcome
           (P := platform) (D := abi) (L := refusing_approve)
           (call 0x095ea7b3 [bob; 100]) 20000 by_alice false store)).
  exists (args 0x095ea7b3 [bob; 100]), bob, (args 0x095ea7b3 [100]), 100,
    (args 0x095ea7b3 []).
  repeat split; reflexivity.
Defined.

(** [transfer(alice, 100)] by [bob], who holds 50. *)
Lemma transfer_above_balance_reverts_witness :
  sample_run (call 0xa9059cbb [alice; 100]) 20000 by_bob false store
  = mk_result false (set_err Revert ExitRevert_Reverted 3662 zeros32) store.
Proof.
  apply (transfer_above_balance_reverts
           (P := platform) (D := abi)
           (call 0xa9059cbb [alice; 100]) (args 0xa9059cbb [alice; 100])
           alice 100).
  - reflexivity.
  - reflexivity.
  - vm_compute. discriminate.
  - reflexivity.
Defined.

(** [transfer(bob, 100)] by [alice], who holds 500. *)
Lemma successful_transfer_moves_balance_witness :
  let r := sample_run (call 0xa9059cbb [bob; 100]) 20000 by_alice false store in
  balance (state_after r) (T6 alice) = balance store (T6 alice) - 100 ∧
  balance (state_after r) (T6 bob) = balance store (T6 bob) + 100 ∧
  balance (state_after r) (T6 alice) + balance (state_after r) (T6 bob)
  = balance store (T6 alice) + balance store (T6 bob).
Proof.
  refine (proj1 (proj2 (successful_transfer_moves_balance
           (P := platform) (D := abi)
           (call 0xa9059cbb [bob; 100]) (args 0xa9059cbb [bob; 100])
           bob 100 20000 by_alice false store _ _ _)) _ _).
  - reflexivity.
  - reflexivity.
  - reflexivity.
  - vm_compute. discriminate.
  - vm_compute. reflexivity.
Defined.

(** [transferFrom(carol, alice, 100)] by [bob]: the allowance of 100 covers
    the amount, [carol]'s balance of 50 does not. *)
Lemma transfer_from_two_steps_witness :
  sample_run (call 0x23b872dd [carol; alice; 100]) 20000 by_bob false store
  = mk_result false (set_err Revert ExitRevert_Reverted 4326 zeros32)
      (set_allowance store (T6 carol) (T6 bob) 0).
Proof.
  refine (proj1 (proj2 (proj2 (transfer_from_two_steps
           (P := platform) (D := abi)
           (call 0x23b872dd [carol; alice; 100])
           (args 0x23b872dd [carol; alice; 100])
           carol alice 100 20000 by_bob store _ _ _)) _ _)).
  - reflexivity.
  - reflexivity.
  - vm_compute. discriminate.
  - vm_compute. discriminate.
  - reflexivity.
Defined.

(** *** Inputs on which the statements of the specification fail *)

(** C1. [transferFrom(carol, alice, 100)] by [bob] passes the static, gas
    and decode checks; the allowance of 100 is debited to 0, the transfer
    fails on [carol]'s balance of 50, and the call ends with the allowance
    debited and no balance moved. *)
Lemma transfer_from_leaves_allowance_debited :
  let r := sample_run (call 0x23b872dd [carol; alice; 100]) 20000 by_bob false store in
  ret r = false ∧
  assigned r = set_err Revert ExitRevert_Reverted 4326 zeros32 ∧
  ledger_allowance store (T6 carol) (T6 bob) = 100 ∧
  ledger_allowance (state_after r) (T6 carol) (T6 bob) = 0 ∧
  balance (state_after r) (T6 carol) = balance store (T6 carol) ∧
  balance (state_after r) (T6 alice) = balance store (T6 alice).
Proof. repeat split; reflexivity. Qed.

(** C2. [mint] by [alice] with a gas limit of 0 fails both the gas and the
    authorization check: the canonical order answers Error(OutOfGas), the
    contract Fatal(Other).  [decimals] with a parameter fails the decode
    check of the canonical order, and the contract returns. *)
Lemma authorization_precedes_gas_check :
  selected (call 0x40c10f19 [alice; 100])
  = Some (method_id_mint, args 0x40c10f19 [alice; 100]) ∧
  canonical_failure method_id_mint (args 0x40c10f19 [alice; 100]) 0 by_alice false store
  = Some (set_err_status Error ExitError_OutOfGas) ∧
  assigned (sample_run (call 0x40c10f19 [alice; 100]) 0 by_alice false store)
  = set_err_status Fatal ExitFatal_Other ∧
  selected (call 0x313ce567 [7])
  = Some (method_id_decimals, args 0x313ce567 [7]) ∧
  canonical_failure method_id_decimals (args 0x313ce567 [7]) 0 by_alice false store
  = Some (set_err_status Fatal ExitFatal_Other) ∧
  ret (sample_run (call 0x313ce567 [7]) 0 by_alice false store) = true.
Proof. repeat split; reflexivity. Qed.

(** C3. [mint] by [alice], who is not the controller, in a static call:
    the exit is Revert(Reverted) with cost 3155, not Fatal(Other). *)
Lemma static_mint_by_stranger_reverts :
  selected (call 0x40c10f19 [alice; 100])
  = Some (method_id_mint, args 0x40c10f19 [alice; 100]) ∧
  account_build_from (caller by_alice) ≠ role_holder role_controller store ∧
  sample_run (call 0x40c10f19 [alice; 100]) 5000 by_alice true store
  = mk_result false (set_err Revert ExitRevert_Reverted 3155 zeros32) store ∧
  assigned (sample_run (call 0x40c10f19 [alice; 100]) 5000 by_alice true store)
  ≠ set_err_status Fatal ExitFatal_Other.
Proof. repeat split; try reflexivity; intros H; vm_compute in H; discriminate H. Qed.

(** C4. With a gas limit of 0, [mint] by [alice], who is not the
    controller, exits with Fatal(Other), and a static [transfer] exits
    with Revert(Reverted); neither is Error(OutOfGas). *)
Lemma gas_shortfall_of_stranger_is_fatal :
  0 < spec_gas method_id_mint ∧
  selected (call 0x40c10f19 [alice; 100])
  = Some (method_id_mint, args 0x40c10f19 [alice; 100]) ∧
  sample_run (call 0x40c10f19 [alice; 100]) 0 by_alice false store
  = mk_result false (set_err_status Fatal ExitFatal_Other) store ∧
  0 < spec_gas method_id_transfer ∧
  selected (call 0xa9059cbb [bob; 100])
  = Some (method_id_transfer, args 0xa9059cbb [bob; 100]) ∧
  sample_run (call 0xa9059cbb [bob; 100]) 0 by_alice true store
  = mk_result false (set_err Revert ExitRevert_Reverted 18446 zeros32) store.
Proof. repeat split; reflexivity. Qed.

(** C6. [decimals] with one parameter, where none is declared, returns 18;
    [allowance] with one parameter, where two are declared, and a gas
    limit of 0 exits with Error(OutOfGas).  Neither is Fatal(Other). *)
Lemma parameters_not_always_checked :
  selected (call 0x313ce567 [7])
  = Some (method_id_decimals, args 0x313ce567 [7]) ∧
  undecodable method_id_decimals (args 0x313ce567 [7]) = true ∧
  sample_run (call 0x313ce567 [7]) 5000 by_alice false store
  = mk_result true (set_output Returned 0 (to_bytes 18) None) store ∧
  selected (call 0xdd62ed3e [carol])
  = Some (method_id_allowance, args 0xdd62ed3e [carol]) ∧
  undecodable method_id_allowance (args 0xdd62ed3e [carol]) = true ∧
  sample_run (call 0xdd62ed3e [carol]) 0 by_alice false store
  = mk_result false (set_err_status Error ExitError_OutOfGas) store.
Proof. repeat split; reflexivity. Qed.

(** C7. [transfer(bob, 100)] by [alice] when [bob] holds 2^256 - 1 succeeds
    and leaves [bob] with 99: the credit wraps, [bob]'s balance is not
    higher by 100 and the sum of the two balances is not kept.
    [transfer(alice, 100)] by [alice], who holds 500, succeeds as well, and
    [alice]'s balance is not lower by 100. *)
Lemma transfer_wraps_or_pays_the_sender :
  (let r := sample_run (call 0xa9059cbb [bob; 100]) 20000 by_alice false brimming in
   ret r = true ∧
   balance brimming (T6 bob) = 2 ^ 256 - 1 ∧
   balance (state_after r) (T6 bob) = 99 ∧
   balance (state_after r) (T6 alice) + balance (state_after r) (T6 bob)
   ≠ balance brimming (T6 alice) + balance brimming (T6 bob)) ∧
  (let r := sample_run (call 0xa9059cbb [alice; 100]) 20000 by_alice false store in
   ret r = true ∧
   balance store (T6 alice) = 500 ∧
   balance (state_after r) (T6 alice) ≠ balance store (T6 alice) - 100).
Proof.
  repeat split; try reflexivity; intros H; vm_compute in H; discriminate H.
Qed.

(** C8. [transfer(alice, 100)] by [bob], who holds 50: as a static call it
    exits with Revert(Reverted) and cost 18446, and with a gas limit of 0
    it exits with Error(OutOfGas); neither is the Revert with cost 3662. *)
Lemma transfer_above_balance_other_exits :
  balance store (account_build_from (caller by_bob)) < 100 ∧
  selected (call 0xa9059cbb [alice; 100])
  = Some (method_id_transfer, args 0xa9059cbb [alice; 100]) ∧
  sample_run (call 0xa9059cbb [alice; 100]) 20000 by_bob true store
  = mk_result false (set_err Revert ExitRevert_Reverted 18446 zeros32) store ∧
  sample_run (call 0xa9059cbb [alice; 100]) 0 by_bob false store
  = mk_result false (set_err_status Error ExitError_OutOfGas) store.
Proof. repeat split; reflexivity. Qed.
End Samples.

(** ** Rejected inputs, static calls and read-only methods *)

Section Reach.
Context {P : Platform} {D : AbiDecoder} {L : StateCtx}.

Ltac unfold_all_cases :=
  unfold case_decimals, case_total_supply, case_balance_of, case_transfer,
    case_transfer_from, case_approve, case_allowance, case_mint, case_burn_from,
    case_transfer_ownership, case_set_controller, case_owner, case_controller,
    decoder_empty, fatal, out_of_gas, reverted, returned, result32;
  unfold total_supply_gas_cost, balance_of_gas_cost, transfer_gas_cost,
    transfer_from_gas_cost, approve_gas_cost, allowance_gas_cost, mint_gas_cost,
    burn_gas_cost, transfer_ownership_gas_cost, set_controller_gas_cost.

Lemma byte_eqb_refl (b : byte) : Byte.eqb b b = true.
Proof. apply Byte.byte_dec_lb. reflexivity. Qed.

(** X1. An input that does not get as far as a [case] block is answered
    with a Fatal exit and nothing else, whatever the gas limit, the caller,
    the static flag and the state: Other for the empty input, for bytes the
    decoder cannot be built from and for a selector that cannot be
    extracted; NotSupported for a chain tag other than [eth], whatever
    follows it, and for a method id that is no [case] label. *)
Theorem rejected_input_exits target_gas context is_static s :
  execute [] target_gas context is_static s = fatal ExitFatal_Other s ∧
  (∀ front rest, front ≠ chain_uuid_eth →
     execute (front :: rest) target_gas context is_static s
     = fatal ExitFatal_NotSupported s) ∧
  (∀ rest, build_from rest = None →
     execute (chain_uuid_eth :: rest) target_gas context is_static s
     = fatal ExitFatal_Other s) ∧
  (∀ rest abi_decoder,
     build_from rest = Some abi_decoder →
     extract_selector abi_decoder = None →
     execute (chain_uuid_eth :: rest) target_gas context is_static s
     = fatal ExitFatal_Other s) ∧
  (∀ rest abi_decoder method_id d,
     build_from rest = Some abi_decoder →
     extract_selector abi_decoder = Some (method_id, d) →
     method_case method_id = None →
     execute (chain_uuid_eth :: rest) target_gas context is_static s
     = fatal ExitFatal_NotSupported s).
Proof.
  split; [reflexivity|]. split; [|split; [|split]].
  - intros front rest Hne. unfold execute.
    destruct (Byte.eqb front chain_uuid_eth) eqn:Heq; [|reflexivity].
    apply Byte.byte_dec_bl in Heq. contradiction.
  - intros rest Hb. unfold execute.
    rewrite byte_eqb_refl, Hb. reflexivity.
  - intros rest abi_decoder Hb Hs. unfold execute.
    rewrite byte_eqb_refl, Hb, Hs. reflexivity.
  - intros rest abi_decoder method_id d Hb Hs Hm. unfold execute.
    rewrite byte_eqb_refl, Hb, Hs, Hm. reflexivity.
Qed.

(** A static call runs no ledger writer. *)
Lemma dispatch_static_keeps_state m d target_gas context s :
  state_after (dispatch m d target_gas context true s) = s.
Proof.
  unfold dispatch. unfold_all_cases.
  destruct m; simpl; try reflexivity; repeat case_match; reflexivity.
Qed.

(** X2. A call with [is_static] set never changes the staged state and never
    pushes a log, for every input, gas limit and caller. *)
Theorem static_call_changes_nothing input target_gas context s :
  let r := execute input target_gas context true s in
  state_after r = s ∧
  ∀ st cost out log, assigned r ≠ set_output st cost out (Some log).
Proof.
  intros r. subst r.
  destruct (selected input) as [[m d]|] eqn:Hsel.
  - rewrite (execute_selected _ _ _ _ _ _ _ Hsel).
    split; [apply dispatch_static_keeps_state|].
    unfold dispatch. unfold_all_cases.
    destruct m; simpl; intros; repeat case_match; discriminate.
  - destruct (execute_not_selected input target_gas context true s Hsel) as [minor ->].
    split; [reflexivity|]. intros. discriminate.
Qed.

(** X3. The six read-only methods (decimals, totalSupply, balanceOf,
    allowance, owner, controller) answer from the gas limit, the parameters
    and the state alone: the caller, the contract address and the static
    flag play no part, the state is left as it was and no log is pushed. *)
Theorem read_only_call_ignores_context
    input m d target_gas context context' is_static is_static' s :
  selected input = Some (m, d) →
  mutating m = false →
  execute input target_gas context is_static s
  = execute input target_gas context' is_static' s ∧
  state_after (execute input target_gas context is_static s) = s ∧
  ∀ st cost out log,
    assigned (execute input target_gas context is_static s)
    ≠ set_output st cost out (Some log).
Proof.
  intros Hsel Hm. rewrite !(execute_selected _ _ _ _ _ _ _ Hsel).
  unfold dispatch. unfold_all_cases.
  destruct m; try discriminate; simpl.
  all: split; [reflexivity|].
  all: split; [repeat case_match; reflexivity|].
  all: intros; repeat case_match; discriminate.
Qed.

(** X4. Above the cost of the selected method the gas limit plays no part:
    two calls that differ only in gas limits that both cover the cost end
    the same way.  The cost is a threshold, not a price. *)
Theorem gas_above_cost_is_irrelevant
    input m d gas1 gas2 context is_static s :
  selected input = Some (m, d) →
  spec_gas m ≤ gas1 →
  spec_gas m ≤ gas2 →
  execute input gas1 context is_static s = execute input gas2 context is_static s.
Proof.
  intros Hsel H1 H2. rewrite !(execute_selected _ _ _ _ _ _ _ Hsel).
  apply N.ltb_ge in H1, H2.
  unfold dispatch. unfold_all_cases.
  destruct m; simpl in H1, H2 |- *; rewrite ?H1, ?H2; reflexivity.
Qed.

End Reach.

(** ** What the exits carry *)

Section ExitShapes.
Context {P : Platform} {D : AbiDecoder} {L : StateCtx}.

Ltac unfold_all_cases :=
  unfold case_decimals, case_total_supply, case_balance_of, case_transfer,
    case_transfer_from, case_approve, case_allowance, case_mint, case_burn_from,
    case_transfer_ownership, case_set_controller, case_owner, case_controller,
    decoder_empty, fatal, out_of_gas, reverted, returned, result32;
  unfold total_supply_gas_cost, balance_of_gas_cost, transfer_gas_cost,
    transfer_from_gas_cost, approve_gas_cost, allowance_gas_cost, mint_gas_cost,
    burn_gas_cost, transfer_ownership_gas_cost, set_controller_gas_cost.

(** X5. Whenever [output] is filled, the call returned [true] and the cost
    it reports is 0, whichever method ran.  A log is pushed exactly by the
    mutating methods, and then the call was not static, the output is the
    32-byte word ending in 1, the log is emitted by the contract's own
    address and has three topics, the first being the event signature of the
    method. *)
Theorem success_exit_shape input target_gas context is_static s st cost out log :
  assigned (execute input target_gas context is_static s) = set_output st cost out log →
  ret (execute input target_gas context is_static s) = true ∧
  cost = 0 ∧
  ∃ m d, selected input = Some (m, d) ∧
    match log with
    | None => mutating m = false
    | Some l =>
        mutating m = true ∧ is_static = false ∧
        out = replicate 31 x00 ++ [x01] ∧
        log_address l = address context ∧
        ∃ t1 t2, log_topics l = [event_of m; t1; t2]
    end.
Proof.
  destruct (selected input) as [[m d]|] eqn:Hsel.
  - rewrite (execute_selected _ _ _ _ _ _ _ Hsel).
    unfold dispatch. unfold_all_cases.
    destruct m; simpl.
    all: repeat case_match; simpl; intros [=]; subst; simplify_eq/=.
    all: split; [reflexivity|]; split; [reflexivity|].
    all: eexists _, _; split; [reflexivity|]; simpl; eauto 10.
  - destruct (execute_not_selected input target_gas context is_static s Hsel)
      as [minor ->].
    discriminate.
Qed.

(** X6. The two status fields of a failure always go together: a failure
    that leaves [err.cost] and [err.output] alone is Fatal with Other or
    NotSupported, or Error with OutOfGas; a failure that fills all of [err]
    is Revert with Reverted and a buffer of 32 zero bytes. *)
Theorem failure_exit_statuses input target_gas context is_static s :
  let r := execute input target_gas context is_static s in
  (∀ f minor, assigned r = set_err_status f minor →
     (f = Fatal ∧ (minor = ExitFatal_Other ∨ minor = ExitFatal_NotSupported)) ∨
     (f = Error ∧ minor = ExitError_OutOfGas)) ∧
  (∀ f minor cost out, assigned r = set_err f minor cost out →
     f = Revert ∧ minor = ExitRevert_Reverted ∧ out = replicate 32 x00).
Proof.
  intros r. subst r.
  destruct (selected input) as [[m d]|] eqn:Hsel.
  - rewrite (execute_selected _ _ _ _ _ _ _ Hsel).
    unfold dispatch. unfold_all_cases.
    split; intros *; destruct m; simpl.
    all: repeat case_match; simpl; intros [=]; subst; auto.
  - pose proof Hsel as Hsel'. revert Hsel'.
    unfold selected, execute, fatal.
    destruct input as [|front rest]; simpl.
    { intros _. split; intros *; intros [=]; subst; auto. }
    destruct (Byte.eqb front chain_uuid_eth); simpl;
      [|intros _; split; intros *; intros [=]; subst; auto].
    destruct (build_from rest) as [abi_decoder|];
      [|intros _; split; intros *; intros [=]; subst; auto].
    destruct (extract_selector abi_decoder) as [[method_id d']|];
      [|intros _; split; intros *; intros [=]; subst; auto].
    destruct (method_case method_id); [discriminate|].
    intros _; split; intros *; intros [=]; subst; auto.
Qed.

(** X7. The cost of a Revert is fixed by the method and by which gate
    produced it: the gas-table cost of the method when the static gate did,
    and the failure cost of the method (3662 for transfer, 4326 for
    transferFrom whichever of its two ledger steps failed, 9299 for approve,
    3155 for the two role changes) when the ledger did. *)
Theorem revert_cost_table input target_gas context is_static s f minor cost out :
  assigned (execute input target_gas context is_static s) = set_err f minor cost out →
  ∃ m d, selected input = Some (m, d) ∧ mutating m = true ∧
    cost = if is_static then spec_gas m else reverted_cost m.
Proof.
  destruct (selected input) as [[m d]|] eqn:Hsel.
  - rewrite (execute_selected _ _ _ _ _ _ _ Hsel).
    unfold dispatch. unfold_all_cases.
    destruct m; simpl.
    all: repeat case_match; simpl; intros [=]; subst.
    all: eexists _, _; split; [reflexivity|]; split; reflexivity.
  - destruct (execute_not_selected input target_gas context is_static s Hsel)
      as [minor' ->].
    discriminate.
Qed.

(** X12. The data of a log follows the event: the two role-change events
    carry no data, and every Transfer and Approval log carries the 32-byte
    encoding of one value. *)
Theorem log_data_by_method
    input m d target_gas context is_static s st cost out l :
  selected input = Some (m, d) →
  assigned (execute input target_gas context is_static s)
  = set_output st cost out (Some l) →
  match privileged m with
  | Some role_owner => log_data l = []
  | _ => ∃ value, log_data l = to_bytes value
  end.
Proof.
  intros Hsel. rewrite (execute_selected _ _ _ _ _ _ _ Hsel).
  unfold dispatch. unfold_all_cases.
  destruct m; simpl.
  all: repeat case_match; simpl; intros [=]; subst; simpl; eauto.
Qed.

(** X13. [totalSupply()] does not read the ledger: with the same input and
    gas limit it ends the same way in every state and for every caller and
    static flag, so minting and burning never move the figure it
    reports. *)
Theorem total_supply_ignores_state
    input d target_gas context context' is_static is_static' s s' :
  selected input = Some (method_id_total_supply, d) →
  ret (execute input target_gas context is_static s)
  = ret (execute input target_gas context' is_static' s') ∧
  assigned (execute input target_gas context is_static s)
  = assigned (execute input target_gas context' is_static' s').
Proof.
  intros Hsel. rewrite !(execute_selected _ _ _ _ _ _ _ Hsel).
  simpl. unfold case_total_supply.
  repeat case_match; split; reflexivity.
Qed.

End ExitShapes.

(** ** Minting, burning and the two roles *)

Section Roles.
Context {P : Platform} {D : AbiDecoder} {L : StateCtx}.

Lemma decode_address (d : xabi_decoder_t) a :
  decode_params [abi_address] d = Some [v_address a] →
  Nat.eqb (decoder_size d) 1 = true ∧ ∃ d1, extract_address d = Some (a, d1).
Proof.
  unfold decode_params. simpl.
  destruct (Nat.eqb (decoder_size d) 1); [|discriminate].
  destruct (extract_address d) as [[a' d1]|] eqn:Ha; [|discriminate].
  intros [= ->]. split; [reflexivity|]. exists d1. reflexivity.
Qed.

Lemma decode_address_address (d : xabi_decoder_t) a b :
  decode_params [abi_address; abi_address] d = Some [v_address a; v_address b] →
  Nat.eqb (decoder_size d) 2 = true ∧
  ∃ d1 d2, extract_address d = Some (a, d1) ∧ extract_address d1 = Some (b, d2).
Proof.
  unfold decode_params. simpl.
  destruct (Nat.eqb (decoder_size d) 2); [|discriminate].
  destruct (extract_address d) as [[a' d1]|] eqn:Ha; [|discriminate].
  destruct (extract_address d1) as [[b' d2]|] eqn:Hb; [|discriminate].
  intros [= -> ->]. split; [reflexivity|]. exists d1, d2.
  split; [reflexivity|assumption].
Qed.

(** The two controller-only cases behind their checks. *)
Lemma case_mint_by_controller (d : xabi_decoder_t) account value target_gas context s :
  account_build_from (caller context) = role_holder role_controller s →
  3155 ≤ target_gas →
  decode_params [abi_address; abi_uint256] d
  = Some [v_address account; v_uint256 value] →
  case_mint chain_uuid_eth d target_gas context false s
  = mk_result true
      (set_output Returned 0 (replicate 31 x00 ++ [x01])
         (Some (mk_log (address context)
                  [event_hex_string_transfer; to_h256 eth_zero; to_h256 account]
                  (to_bytes value))))
      (tep_token_deposit s (account_build_from account) usdt value).
Proof.
  intros Hrole Hgas Hdec.
  apply N.ltb_ge in Hgas. unfold role_holder in Hrole.
  apply decode_address_uint256 in Hdec as (Hsize & d1 & d2 & Ha & Hv).
  unfold case_mint, mint_gas_cost. simpl.
  rewrite bool_decide_eq_false_2 by (intros Hne; apply Hne; exact Hrole).
  rewrite Hgas, Hsize, Ha, Hv. reflexivity.
Qed.

Lemma case_burn_by_controller (d : xabi_decoder_t) account value target_gas context s :
  account_build_from (caller context) = role_holder role_controller s →
  3155 ≤ target_gas →
  decode_params [abi_address; abi_uint256] d
  = Some [v_address account; v_uint256 value] →
  case_burn_from chain_uuid_eth d target_gas context false s
  = mk_result true
      (set_output Returned 0 (replicate 31 x00 ++ [x01])
         (Some (mk_log (address context)
                  [event_hex_string_transfer; to_h256 account; to_h256 eth_zero]
                  (to_bytes value))))
      (tep_token_withdraw s (account_build_from account) usdt value).
Proof.
  intros Hrole Hgas Hdec.
  apply N.ltb_ge in Hgas. unfold role_holder in Hrole.
  apply decode_address_uint256 in Hdec as (Hsize & d1 & d2 & Ha & Hv).
  unfold case_burn_from, burn_gas_cost. simpl.
  rewrite bool_decide_eq_false_2 by (intros Hne; apply Hne; exact Hrole).
  rewrite Hgas, Hsize, Ha, Hv. reflexivity.
Qed.

(** X8. [mint] and [burnFrom] have no failure exit behind their checks: a
    non-static call by the stored controller with a gas limit of at least
    3155 and parameters that decode to (account, value) always returns
    [true] with the word ending in 1 and one Transfer log (from the zero
    address to the account for [mint], from the account to the zero address
    for [burnFrom], data the encoding of value), and leaves the state the
    ledger's deposit, respectively withdrawal, produced, whatever that
    is. *)
Theorem controller_mint_and_burn_return
    input m d account value target_gas context s :
  selected input = Some (m, d) →
  m = method_id_mint ∨ m = method_id_burn_from →
  account_build_from (caller context) = role_holder role_controller s →
  3155 ≤ target_gas →
  decode_params (spec_params m) d = Some [v_address account; v_uint256 value] →
  execute input target_gas context false s
  = mk_result true
      (set_output Returned 0 (replicate 31 x00 ++ [x01])
         (Some (mk_log (address context)
                  (if decide (m = method_id_mint)
                   then [event_hex_string_transfer; to_h256 eth_zero; to_h256 account]
                   else [event_hex_string_transfer; to_h256 account; to_h256 eth_zero])
                  (to_bytes value))))
      (if decide (m = method_id_mint)
       then tep_token_deposit s (account_build_from account) usdt value
       else tep_token_withdraw s (account_build_from account) usdt value).
Proof.
  intros Hsel Hm Hrole Hgas Hdec.
  rewrite (execute_selected _ _ _ _ _ _ _ Hsel).
  destruct Hm as [-> | ->]; simpl.
  - apply case_mint_by_controller; assumption.
  - apply case_burn_by_controller; assumption.
Qed.

(** X9. The log of a successful [setController] names the controller that
    was stored before the call: its second topic is, byte for byte, what
    [controller()] returns in the state the call started from. *)
Theorem controller_set_log_names_previous_controller
    input d getter d0 target_gas gas0 context context0 is_static is_static0
    s st cost out log :
  selected input = Some (method_id_set_controller, d) →
  selected getter = Some (method_id_controller, d0) →
  assigned (execute input target_gas context is_static s)
  = set_output st cost out (Some log) →
  ∃ previous new_topic,
    execute getter gas0 context0 is_static0 s
    = mk_result true (set_output Returned 0 previous None) s ∧
    log_topics log = [event_hex_string_controller_set; previous; new_topic].
Proof.
  intros Hsel Hget.
  rewrite (execute_selected _ _ _ _ _ _ _ Hsel), (execute_selected _ _ _ _ _ _ _ Hget).
  simpl. unfold case_set_controller, case_controller, returned, reverted, fatal, out_of_gas.
  repeat case_match; simpl; intros [=]; subst.
  eexists _, _. split; reflexivity.
Qed.

(** X10. [approve] and [allowance] address the same ledger entry: the
    caller of [approve] is the owner and its first parameter the spender.
    On a ledger whose [allowance] reads back what its [approve] stored for
    that pair, after a non-static [approve(spender, amount)] with a gas limit
    of at least 18599, an [allowance(caller, spender)] call with a gas limit
    of at least 3987, by anyone, static or not, returns the encoding of
    amount. *)
Theorem approve_then_allowance
    input d spender amount target_gas context
    query d' gas' context' is_static' s :
  selected input = Some (method_id_approve, d) →
  decode_params (spec_params method_id_approve) d
  = Some [v_address spender; v_uint256 amount] →
  18599 ≤ target_gas →
  allowance
    (approve s (account_build_from (caller context)) usdt
       (account_build_from spender) amount).1
    (account_build_from (caller context)) usdt (account_build_from spender)
  = amount →
  selected query = Some (method_id_allowance, d') →
  decode_params (spec_params method_id_allowance) d'
  = Some [v_address (caller context); v_address spender] →
  3987 ≤ gas' →
  let s1 := state_after (execute input target_gas context false s) in
  execute query gas' context' is_static' s1
  = mk_result true (set_output Returned 0 (to_bytes amount) None) s1.
Proof.
  intros Hsel Hdec Hg Hlaw Hq Hdq Hgas s1.
  assert (Hs1 : s1 = (approve s (account_build_from (caller context)) usdt
                        (account_build_from spender) amount).1).
  { subst s1. rewrite (execute_selected _ _ _ _ _ _ _ Hsel). simpl.
    apply decode_address_uint256 in Hdec as (Hsize & d1 & d2 & Ha & Hv).
    apply N.ltb_ge in Hg.
    unfold case_approve, approve_gas_cost. rewrite Hg, Hsize, Ha, Hv. simpl.
    destruct (approve _ _ _ _ _) as [s' ec]. simpl.
    destruct (ec_ok ec); reflexivity. }
  rewrite (execute_selected _ _ _ _ _ _ _ Hq). simpl.
  apply decode_address_address in Hdq as (Hsize & d1 & d2 & Ha & Hb).
  apply N.ltb_ge in Hgas.
  unfold case_allowance, allowance_gas_cost.
  rewrite Hgas, Hsize, Ha, Hb. simpl. rewrite Hs1, Hlaw. reflexivity.
Qed.

(** X11. Handing the ownership over locks the previous owner out.  On a
    ledger whose owner getter reads back the account its setter stored,
    after a non-static [transferOwnership(new_owner)] by the stored owner
    with a gas limit of at least 3155, every non-static [transferOwnership]
    or [setController] call of a caller whose account is not that of
    new_owner ends in Fatal(Other) and changes nothing, for every gas limit
    and parameter stream. *)
Theorem ownership_handover_locks_out
    input d new_owner target_gas context
    later m d' gas' context' s :
  selected input = Some (method_id_transfer_ownership, d) →
  decode_params (spec_params method_id_transfer_ownership) d
  = Some [v_address new_owner] →
  account_build_from (caller context) = role_holder role_owner s →
  3155 ≤ target_gas →
  tep_token_owner
    (set_tep_token_owner s evm_usdt_contract_address chain_uuid_eth
       (account_build_from new_owner)).1
    evm_usdt_contract_address chain_uuid_eth
  = account_build_from new_owner →
  selected later = Some (m, d') →
  privileged m = Some role_owner →
  account_build_from (caller context') ≠ account_build_from new_owner →
  let s1 := state_after (execute input target_gas context false s) in
  execute later gas' context' false s1
  = mk_result false (set_err_status Fatal ExitFatal_Other) s1.
Proof.
  intros Hsel Hdec Hrole Hg Hlaw Hl Hpriv Hne s1.
  assert (Hs1 : s1 = (set_tep_token_owner s evm_usdt_contract_address chain_uuid_eth
                        (account_build_from new_owner)).1).
  { subst s1. rewrite (execute_selected _ _ _ _ _ _ _ Hsel). simpl.
    apply decode_address in Hdec as (Hsize & d1 & Ha).
    apply N.ltb_ge in Hg. unfold role_holder in Hrole.
    unfold case_transfer_ownership, transfer_ownership_gas_cost.
    rewrite bool_decide_eq_false_2 by (intros Hx; apply Hx; exact Hrole).
    rewrite Hg, Hsize, Ha. simpl.
    destruct (set_tep_token_owner _ _ _ _) as [s' ec]. simpl.
    destruct (ec_ok ec); reflexivity. }
  rewrite (execute_selected _ _ _ _ _ _ _ Hl).
  apply dispatch_first_failure.
  unfold first_failure, static_violation, unauthorized.
  rewrite andb_false_r, Hpriv. simpl. rewrite Hs1, Hlaw.
  rewrite bool_decide_eq_true_2 by exact Hne. reflexivity.
Qed.

(** X18. [setController] hands minting over.  On a ledger whose controller
    getter reads back the account its setter stored, after a non-static
    [setController(new_controller)] by the stored owner with a gas limit of
    at least 3155, a non-static [mint] or [burnFrom] by a caller whose
    account is not that of new_controller ends in Fatal(Other) and changes
    nothing, whatever its gas limit and parameters, while one by
    new_controller with a gas limit of at least 3155 and parameters that
    decode returns [true]. *)
Theorem set_controller_hands_minting_over
    input d new_controller target_gas context
    later m d' gas' context' s :
  selected input = Some (method_id_set_controller, d) →
  decode_params (spec_params method_id_set_controller) d
  = Some [v_address new_controller] →
  account_build_from (caller context) = role_holder role_owner s →
  3155 ≤ target_gas →
  tep_token_controller
    (set_tep_token_controller s evm_usdt_contract_address chain_uuid_eth
       (account_build_from new_controller)).1
    evm_usdt_contract_address chain_uuid_eth
  = account_build_from new_controller →
  selected later = Some (m, d') →
  privileged m = Some role_controller →
  let s1 := state_after (execute input target_gas context false s) in
  (account_build_from (caller context') ≠ account_build_from new_controller →
     execute later gas' context' false s1
     = mk_result false (set_err_status Fatal ExitFatal_Other) s1) ∧
  (account_build_from (caller context') = account_build_from new_controller →
   3155 ≤ gas' →
   ∀ account value,
     decode_params (spec_params m) d' = Some [v_address account; v_uint256 value] →
     ret (execute later gas' context' false s1) = true).
Proof.
  intros Hsel Hdec Hrole Hg Hlaw Hl Hpriv s1.
  assert (Hs1 : s1 = (set_tep_token_controller s evm_usdt_contract_address
                        chain_uuid_eth (account_build_from new_controller)).1).
  { subst s1. rewrite (execute_selected _ _ _ _ _ _ _ Hsel). simpl.
    apply decode_address in Hdec as (Hsize & d1 & Ha).
    apply N.ltb_ge in Hg. unfold role_holder in Hrole.
    unfold case_set_controller, set_controller_gas_cost.
    rewrite bool_decide_eq_false_2 by (intros Hx; apply Hx; exact Hrole).
    rewrite Hg, Hsize, Ha. simpl.
    destruct (set_tep_token_controller _ _ _ _) as [s' ec]. simpl.
    destruct (ec_ok ec); reflexivity. }
  assert (Hholder : role_holder role_controller s1 = account_build_from new_controller).
  { unfold role_holder. rewrite Hs1. exact Hlaw. }
  rewrite (execute_selected _ _ _ _ _ _ _ Hl). split.
  - intros Hne. apply dispatch_first_failure.
    unfold first_failure, static_violation, unauthorized.
    rewrite andb_false_r, Hpriv, Hholder.
    rewrite bool_decide_eq_true_2 by exact Hne. reflexivity.
  - intros Heq Hgas account value Hd.
    rewrite <-Hholder in Heq.
    destruct m; try discriminate; simpl in Hd; unfold dispatch.
    + rewrite (case_mint_by_controller d' account value); auto.
    + rewrite (case_burn_by_controller d' account value); auto.
Qed.

End Roles.

(** ** The contract over the ledger written from the specification *)

Section Supply.
Context {P : Platform} {D : AbiDecoder}.
Import SpecLedger.

Abbreviation run_on_ledger := (execute (L := spec_ledger)).

Ltac unfold_ledger_cases :=
  unfold case_decimals, case_total_supply, case_balance_of, case_transfer,
    case_transfer_from, case_approve, case_allowance, case_mint, case_burn_from,
    case_transfer_ownership, case_set_controller, case_owner, case_controller,
    decoder_empty, fatal, out_of_gas, reverted, returned, result32;
  simpl;
  unfold ledger_transfer, ledger_update_allowance, ledger_approve,
    ledger_set_owner, ledger_set_controller.

Lemma total_insert (m : gmap xaccount_address_t N) a v :
  map_fold (λ _ x acc, x + acc) 0 (<[a := v]> m) + default 0 (m !! a)
  = map_fold (λ _ x acc, x + acc) 0 m + v.
Proof.
  destruct (m !! a) as [x|] eqn:Hx; simpl.
  - rewrite <-(insert_delete_eq m).
    rewrite map_fold_insert_L; [|intros; lia|apply lookup_delete_eq].
    rewrite (map_fold_delete_L _ _ a x m); [|intros; lia|exact Hx]. lia.
  - rewrite map_fold_insert_L; [|intros; lia|exact Hx]. lia.
Qed.

Lemma total_set_balance (s : ledger) a v :
  total_balance (set_balance s a v) + balance s a = total_balance s + v.
Proof. apply total_insert. Qed.

Lemma balance_le_total (s : ledger) a : balance s a ≤ total_balance s.
Proof. pose proof (total_set_balance s a 0). lia. Qed.

Lemma total_deposit (s : ledger) a v :
  balance s a + v < 2 ^ 256 →
  total_balance (deposit s a v) = total_balance s + v.
Proof.
  intros Hfit. unfold deposit. rewrite (N.mod_small _ _ Hfit).
  pose proof (total_set_balance s a (balance s a + v)). lia.
Qed.

Lemma total_withdraw (s : ledger) a v :
  total_balance (withdraw s a v) + (if balance s a <? v then 0 else v)
  = total_balance s.
Proof.
  unfold withdraw. destruct (balance s a <? v) eqn:Hlt; [lia|].
  apply N.ltb_ge in Hlt.
  pose proof (total_set_balance s a (balance s a - v)). lia.
Qed.

(** A transfer keeps a sum that fits in 256 bits: the credit cannot wrap,
    since what the recipient holds after the debit plus the amount is within
    the sum. *)
Lemma total_moved (s : ledger) a b v :
  total_balance s < 2 ^ 256 →
  (balance s a <? v) = false →
  total_balance (deposit (withdraw s a v) b v) = total_balance s.
Proof.
  intros Hfit Hlt.
  pose proof (total_withdraw s a v) as Hw. rewrite Hlt in Hw.
  pose proof (balance_le_total (withdraw s a v) b) as Hb.
  rewrite total_deposit; lia.
Qed.

Lemma total_set_allowance (s : ledger) o sp v :
  total_balance (set_allowance s o sp v) = total_balance s.
Proof. reflexivity. Qed.

Lemma allowance_withdraw (s : ledger) a v o sp :
  ledger_allowance (withdraw s a v) o sp = ledger_allowance s o sp.
Proof. unfold withdraw. destruct (balance s a <? v); reflexivity. Qed.

(** X14. Over this ledger, when the sum of all balances fits in 256 bits,
    it is kept by every call that is not a [mint] or a [burnFrom]:
    transfers move tokens without wrapping, and approvals, role changes,
    read-only calls and every failing call leave the sum as it was. *)
Theorem total_balance_kept_outside_mint_and_burn
    input target_gas context is_static (s : ledger) :
  total_balance s < 2 ^ 256 →
  (∀ d, selected input ≠ Some (method_id_mint, d)) →
  (∀ d, selected input ≠ Some (method_id_burn_from, d)) →
  total_balance (state_after (run_on_ledger input target_gas context is_static s))
  = total_balance s.
Proof.
  intros Hfit Hmint Hburn.
  destruct (selected input) as [[m d]|] eqn:Hsel.
  - rewrite (execute_selected _ _ _ _ _ _ _ Hsel).
    destruct m; try (exfalso; eapply Hmint; reflexivity);
      try (exfalso; eapply Hburn; reflexivity).
    all: unfold dispatch; unfold_ledger_cases.
    all: repeat case_match; simplify_eq/=; try reflexivity.
    all: etrans; [apply total_moved; assumption|reflexivity].
  - destruct (execute_not_selected (L := spec_ledger)
                input target_gas context is_static s Hsel) as [minor ->].
    reflexivity.
Qed.

(** X15. Over this ledger a [mint(account, value)] by the controller leaves
    the account with its balance plus value, taken modulo 2^256.  When that
    sum fits in 256 bits, the mint adds value to the balance and to the sum
    of all balances, and a [burnFrom(account, value)] by the controller
    right after it puts every balance, and the sum, back to what it was
    before the mint. *)
Theorem mint_then_burn_restores_balances
    minting d burning d' account value gas gas' context context' (s : ledger) :
  selected minting = Some (method_id_mint, d) →
  decode_params (spec_params method_id_mint) d
  = Some [v_address account; v_uint256 value] →
  selected burning = Some (method_id_burn_from, d') →
  decode_params (spec_params method_id_burn_from) d'
  = Some [v_address account; v_uint256 value] →
  account_build_from (caller context) = role_holder role_controller s →
  account_build_from (caller context') = role_holder role_controller s →
  3155 ≤ gas → 3155 ≤ gas' →
  let s1 := state_after (run_on_ledger minting gas context false s) in
  let s2 := state_after (run_on_ledger burning gas' context' false s1) in
  balance s1 (account_build_from account)
  = (balance s (account_build_from account) + value) mod 2 ^ 256 ∧
  (balance s (account_build_from account) + value < 2 ^ 256 →
     balance s1 (account_build_from account)
     = balance s (account_build_from account) + value ∧
     total_balance s1 = total_balance s + value ∧
     (∀ a, balance s2 a = balance s a) ∧
     total_balance s2 = total_balance s).
Proof.
  intros Hm Hdm Hb Hdb Hc Hc' Hg Hg' s1 s2.
  assert (Hs1 : s1 = deposit s (account_build_from account) value).
  { subst s1. rewrite (execute_selected _ _ _ _ _ _ _ Hm). unfold dispatch.
    rewrite (case_mint_by_controller (L := spec_ledger) d account value); auto. }
  assert (Hs2 : s2 = withdraw s1 (account_build_from account) value).
  { subst s2. rewrite (execute_selected _ _ _ _ _ _ _ Hb). unfold dispatch.
    rewrite (case_burn_by_controller (L := spec_ledger) d' account value); auto.
    rewrite Hs1. exact Hc'. }
  assert (Hwrap : balance s1 (account_build_from account)
                  = (balance s (account_build_from account) + value) mod 2 ^ 256).
  { rewrite Hs1, balance_deposit. rewrite decide_True by reflexivity. reflexivity. }
  split; [exact Hwrap|]. intros Hfit.
  assert (Hb1 : balance s1 (account_build_from account)
                = balance s (account_build_from account) + value).
  { rewrite Hwrap. apply N.mod_small. exact Hfit. }
  assert (Ht1 : total_balance s1 = total_balance s + value).
  { rewrite Hs1. apply total_deposit. exact Hfit. }
  split; [exact Hb1|]. split; [exact Ht1|]. split.
  - intros a. rewrite Hs2, balance_withdraw by (rewrite Hb1; lia).
    rewrite Hb1. rewrite Hs1, balance_deposit.
    destruct (decide (a = account_build_from account)) as [->|Hne]; [lia|reflexivity].
  - pose proof (total_withdraw s1 (account_build_from account) value) as Hw.
    rewrite <-Hs2 in Hw.
    assert (Hlt : (balance s1 (account_build_from account) <? value) = false)
      by (apply N.ltb_ge; rewrite Hb1; lia).
    rewrite Hlt in Hw. lia.
Qed.

(** X16. Over this ledger a call that returns [false] leaves the store as it
    was, with one exception: a [transferFrom] whose allowance covers the
    value while the owner's balance does not, which leaves the allowance
    debited. *)
Theorem failed_call_leaves_ledger
    input target_gas context is_static (s : ledger) :
  let r := run_on_ledger input target_gas context is_static s in
  ret r = false →
  state_after r = s ∨
  ∃ d holder spender value,
    selected input = Some (method_id_transfer_from, d) ∧
    value ≤ ledger_allowance s holder spender ∧
    balance s holder < value ∧
    state_after r
    = set_allowance s holder spender (ledger_allowance s holder spender - value).
Proof.
  intros r. subst r.
  destruct (selected input) as [[m d]|] eqn:Hsel.
  - rewrite (execute_selected _ _ _ _ _ _ _ Hsel).
    unfold dispatch; unfold_ledger_cases.
    destruct m; simpl.
    all: repeat case_match; simplify_eq/=; try discriminate; intros _; auto.
    right. eexists d, _, _, _. split; [reflexivity|].
    split; [|split; [|reflexivity]].
    + apply N.ltb_ge. eassumption.
    + apply N.ltb_lt. eassumption.
  - destruct (execute_not_selected (L := spec_ledger)
                input target_gas context is_static s Hsel) as [minor ->].
    auto.
Qed.

(** X17. [approve] and [transferFrom] address the same allowance: the caller
    of [transferFrom] spends what the owner named in its first parameter
    approved for that caller.  Over this ledger, after
    [approve(spender, amount)] by an owner, a [transferFrom(owner, to, value)]
    by the spender with value within both amount and the owner's balance
    returns [true], pushes a Transfer log from owner to the recipient, and
    leaves amount - value as the allowance. *)
Theorem approve_then_transfer_from
    approving d spender amount gas context
    spending d' to value gas' context' (s : ledger) :
  selected approving = Some (method_id_approve, d) →
  decode_params (spec_params method_id_approve) d
  = Some [v_address spender; v_uint256 amount] →
  18599 ≤ gas →
  selected spending = Some (method_id_transfer_from, d') →
  decode_params (spec_params method_id_transfer_from) d'
  = Some [v_address (caller context); v_address to; v_uint256 value] →
  18190 ≤ gas' →
  account_build_from (caller context') = account_build_from spender →
  value ≤ amount →
  value ≤ balance s (account_build_from (caller context)) →
  let s1 := state_after (run_on_ledger approving gas context false s) in
  let r := run_on_ledger spending gas' context' false s1 in
  ret r = true ∧
  assigned r
  = set_output Returned 0 (replicate 31 x00 ++ [x01])
      (Some (mk_log (address context')
               [event_hex_string_transfer; to_h256 (caller context); to_h256 to]
               (to_bytes value))) ∧
  ledger_allowance (state_after r) (account_build_from (caller context))
    (account_build_from spender)
  = amount - value.
Proof.
  intros Ha Hda Hg Hs Hds Hg' Hsp Hle Hbal s1 r.
  set (owner := account_build_from (caller context)) in *.
  assert (Hs1 : s1 = set_allowance s owner (account_build_from spender) amount).
  { subst s1. rewrite (execute_selected _ _ _ _ _ _ _ Ha). simpl.
    apply decode_address_uint256 in Hda as (Hsize & d1 & d2 & Hx & Hv).
    apply N.ltb_ge in Hg.
    unfold case_approve, approve_gas_cost. rewrite Hg, Hsize, Hx, Hv. reflexivity. }
  subst r. rewrite (execute_selected _ _ _ _ _ _ _ Hs). simpl.
  apply decode_address_address_uint256 in Hds
    as (Hsize & d1 & d2 & d3 & Hx & Hy & Hv).
  apply N.ltb_ge in Hg'.
  unfold case_transfer_from, transfer_from_gas_cost.
  rewrite Hg', Hsize, Hx, Hy, Hv. simpl.
  fold owner. rewrite Hsp.
  unfold ledger_update_allowance.
  rewrite Hs1, allowance_set_allowance.
  apply N.ltb_ge in Hle. rewrite Hle. simpl.
  unfold ledger_transfer.
  change (balance (set_allowance (set_allowance s owner (account_build_from spender) amount)
                     owner (account_build_from spender) (amount - value)) owner)
    with (balance s owner).
  apply N.ltb_ge in Hbal. rewrite Hbal. simpl.
  split; [reflexivity|]. split; [reflexivity|].
  change (ledger_allowance (deposit ?x ?a ?v) ?o ?sp) with (ledger_allowance x o sp).
  rewrite allowance_withdraw. apply allowance_set_allowance.
Qed.

End Supply.

(** ** More sample calls *)

Section MoreSamples.
Import Sample SpecLedger.

Abbreviation on_store :=
  (execute (P := platform) (D := abi) (L := spec_ledger)).

(** [balanceOf(alice)] asked by [alice] and, statically, by [bob]. *)
Lemma read_only_call_ignores_context_witness :
  on_store (call 0x70a08231 [alice]) 5000 by_alice false store
  = on_store (call 0x70a08231 [alice]) 5000 by_bob true store ∧
  state_after (on_store (call 0x70a08231 [alice]) 5000 by_alice false store) = store ∧
  ∀ st cost out log,
    assigned (on_store (call 0x70a08231 [alice]) 5000 by_alice false store)
    ≠ set_output st cost out (Some log).
Proof.
  apply (read_only_call_ignores_context
           (P := platform) (D := abi) (L := spec_ledger)
           (call 0x70a08231 [alice]) method_id_balance_of
           (args 0x70a08231 [alice])); reflexivity.
Defined.

(** [transfer(bob, 100)] with exactly the cost and with far more. *)
Lemma gas_above_cost_is_irrelevant_witness :
  on_store (call 0xa9059cbb [bob; 100]) 18446 by_alice false store
  = on_store (call 0xa9059cbb [bob; 100]) 99999 by_alice false store.
Proof.
  apply (gas_above_cost_is_irrelevant
           (P := platform) (D := abi) (L := spec_ledger)
           (call 0xa9059cbb [bob; 100]) method_id_transfer
           (args 0xa9059cbb [bob; 100])).
  - reflexivity.
  - simpl. lia.
  - simpl. lia.
Defined.

(** The successful [transfer(bob, 100)] by [alice]. *)
Lemma success_exit_shape_witness :
  ret (on_store (call 0xa9059cbb [bob; 100]) 20000 by_alice false store) = true.
Proof.
  refine (proj1 (success_exit_shape
           (P := platform) (D := abi) (L := spec_ledger)
           (call 0xa9059cbb [bob; 100]) 20000 by_alice false store
           Returned 0 (replicate 31 x00 ++ [x01])
           (Some (mk_log contract
                    [to_big_endian 32 0xe1; to_big_endian 32 alice; to_big_endian 32 bob]
                    (to_big_endian 32 100))) _)).
  reflexivity.
Defined.

(** [transfer(alice, 100)] by [bob], who holds 50: the ledger reverts. *)
Lemma revert_cost_table_witness :
  ∃ m d, selected (call 0xa9059cbb [alice; 100]) = Some (m, d) ∧
    mutating m = true ∧
    3662 = if false then spec_gas m else reverted_cost m.
Proof.
  apply (revert_cost_table
           (P := platform) (D := abi) (L := spec_ledger)
           (call 0xa9059cbb [alice; 100]) 20000 by_bob false store
           Revert ExitRevert_Reverted 3662 (replicate 32 x00)).
  reflexivity.
Defined.

(** [burnFrom(bob, 20)] by [carol], the controller. *)
Lemma controller_mint_and_burn_return_witness :
  on_store (call 0x79cc6790 [bob; 20]) 5000 by_carol false store
  = mk_result true
      (set_output Returned 0 (replicate 31 x00 ++ [x01])
         (Some (mk_log contract
                  [event_hex_string_transfer; to_h256 bob; to_h256 eth_zero]
                  (to_bytes 20))))
      (withdraw store (T6 bob) 20).
Proof.
  apply (controller_mint_and_burn_return
           (P := platform) (D := abi) (L := spec_ledger)
           (call 0x79cc6790 [bob; 20]) method_id_burn_from
           (args 0x79cc6790 [bob; 20]) bob 20 5000 by_carol store).
  - reflexivity.
  - right. reflexivity.
  - reflexivity.
  - lia.
  - reflexivity.
Defined.

(** [setController(alice)] by [carol], the owner, and [controller()] asked
    in the state before it. *)
Lemma controller_set_log_names_previous_controller_witness :
  ∃ previous new_topic,
    on_store (call 0xf77c4791 []) 0 by_bob true store
    = mk_result true (set_output Returned 0 previous None) store ∧
    [to_big_endian 32 0xe4; to_big_endian 32 carol; to_big_endian 32 alice]
    = [event_hex_string_controller_set; previous; new_topic].
Proof.
  apply (controller_set_log_names_previous_controller
           (P := platform) (D := abi) (L := spec_ledger)
           (call 0x92eefe9b [alice]) (args 0x92eefe9b [alice])
           (call 0xf77c4791 []) (args 0xf77c4791 [])
           5000 0 by_carol by_bob false true store
           Returned 0 (replicate 31 x00 ++ [x01])
           (mk_log contract
              [to_big_endian 32 0xe4; to_big_endian 32 carol; to_big_endian 32 alice]
              [])).
  - reflexivity.
  - reflexivity.
  - reflexivity.
Defined.

(** [approve(bob, 70)] by [alice], then [allowance(alice, bob)] asked by
    [carol]. *)
Lemma approve_then_allowance_witness :
  let s1 := state_after (on_store (call 0x095ea7b3 [bob; 70]) 20000 by_alice false store) in
  on_store (call 0xdd62ed3e [alice; bob]) 5000 by_carol true s1
  = mk_result true (set_output Returned 0 (to_bytes 70) None) s1.
Proof.
  apply (approve_then_allowance
           (P := platform) (D := abi) (L := spec_ledger)
           (call 0x095ea7b3 [bob; 70]) (args 0x095ea7b3 [bob; 70]) bob 70
           20000 by_alice
           (call 0xdd62ed3e [alice; bob]) (args 0xdd62ed3e [alice; bob])
           5000 by_carol true store).
  - reflexivity.
  - reflexivity.
  - lia.
  - reflexivity.
  - reflexivity.
  - reflexivity.
  - lia.
Defined.

(** [transferOwnership(alice)] by [carol], then [setController(carol)] by
    [carol]. *)
Lemma ownership_handover_locks_out_witness :
  let s1 := state_after (on_store (call 0xf2fde38b [alice]) 5000 by_carol false store) in
  on_store (call 0x92eefe9b [carol]) 5000 by_carol false s1
  = mk_result false (set_err_status Fatal ExitFatal_Other) s1.
Proof.
  apply (ownership_handover_locks_out
           (P := platform) (D := abi) (L := spec_ledger)
           (call 0xf2fde38b [alice]) (args 0xf2fde38b [alice]) alice
           5000 by_carol
           (call 0x92eefe9b [carol]) method_id_set_controller
           (args 0x92eefe9b [carol]) 5000 by_carol store).
  - reflexivity.
  - reflexivity.
  - reflexivity.
  - lia.
  - reflexivity.
  - reflexivity.
  - reflexivity.
  - discriminate.
Defined.

(** The log of [transferOwnership(alice)] by [carol] has no data. *)
Lemma log_data_by_method_witness :
  log_data (mk_log contract
              [to_big_endian 32 0xe3; to_big_endian 32 carol; to_big_endian 32 alice]
              []) = [].
Proof.
  apply (log_data_by_method
           (P := platform) (D := abi) (L := spec_ledger)
           (call 0xf2fde38b [alice]) method_id_transfer_ownership
           (args 0xf2fde38b [alice]) 5000 by_carol false store
           Returned 0 (replicate 31 x00 ++ [x01])).
  - reflexivity.
  - reflexivity.
Defined.

(** [totalSupply()] in the sample store and in the store after a mint. *)
Lemma total_supply_ignores_state_witness :
  ret (on_store (call 0x18160ddd []) 3000 by_alice false store)
  = ret (on_store (call 0x18160ddd []) 3000 by_bob true
           (deposit store (T6 alice) 1000)) ∧
  assigned (on_store (call 0x18160ddd []) 3000 by_alice false store)
  = assigned (on_store (call 0x18160ddd []) 3000 by_bob true
                (deposit store (T6 alice) 1000)).
Proof.
  apply (total_supply_ignores_state
           (P := platform) (D := abi) (L := spec_ledger)
           (call 0x18160ddd []) (args 0x18160ddd [])).
  reflexivity.
Defined.

(** [transfer(bob, 100)] by [alice] keeps the sum of the balances. *)
Lemma total_balance_kept_outside_mint_and_burn_witness :
  total_balance
    (state_after (on_store (call 0xa9059cbb [bob; 100]) 20000 by_alice false store))
  = total_balance store.
Proof.
  apply (total_balance_kept_outside_mint_and_burn
           (P := platform) (D := abi)
           (call 0xa9059cbb [bob; 100]) 20000 by_alice false store).
  - vm_compute. reflexivity.
  - intros d H. discriminate H.
  - intros d H. discriminate H.
Defined.

(** [mint(bob, 30)] and then [burnFrom(bob, 30)], both by [carol]. *)
Lemma mint_then_burn_restores_balances_witness :
  let s1 := state_after (on_store (call 0x40c10f19 [bob; 30]) 5000 by_carol false store) in
  let s2 := state_after (on_store (call 0x79cc6790 [bob; 30]) 5000 by_carol false s1) in
  balance s1 (T6 bob) = balance store (T6 bob) + 30 ∧
  total_balance s1 = total_balance store + 30 ∧
  (∀ a, balance s2 a = balance store a) ∧
  total_balance s2 = total_balance store.
Proof.
  refine (proj2 (mint_then_burn_restores_balances
           (P := platform) (D := abi)
           (call 0x40c10f19 [bob; 30]) (args 0x40c10f19 [bob; 30])
           (call 0x79cc6790 [bob; 30]) (args 0x79cc6790 [bob; 30])
           bob 30 5000 5000 by_carol by_carol store _ _ _ _ _ _ _ _) _).
  - reflexivity.
  - reflexivity.
  - reflexivity.
  - reflexivity.
  - reflexivity.
  - reflexivity.
  - lia.
  - lia.
  - vm_compute. reflexivity.
Defined.

(** [transfer(alice, 100)] by [bob], who holds 50, returns [false]. *)
Lemma failed_call_leaves_ledger_witness :
  let r := on_store (call 0xa9059cbb [alice; 100]) 20000 by_bob false store in
  state_after r = store ∨
  ∃ d holder spender value,
    selected (call 0xa9059cbb [alice; 100]) = Some (method_id_transfer_from, d) ∧
    value ≤ ledger_allowance store holder spender ∧
    balance store holder < value ∧
    state_after r
    = set_allowance store holder spender (ledger_allowance store holder spender - value).
Proof.
  apply (failed_call_leaves_ledger
           (P := platform) (D := abi)
           (call 0xa9059cbb [alice; 100]) 20000 by_bob false store).
  reflexivity.
Defined.

(** [approve(bob, 70)] by [alice], then [transferFrom(alice, carol, 30)] by
    [bob]. *)
Lemma approve_then_transfer_from_witness :
  let s1 := state_after (on_store (call 0x095ea7b3 [bob; 70]) 20000 by_alice false store) in
  let r := on_store (call 0x23b872dd [alice; carol; 30]) 20000 by_bob false s1 in
  ret r = true ∧
  assigned r
  = set_output Returned 0 (replicate 31 x00 ++ [x01])
      (Some (mk_log contract
               [event_hex_string_transfer; to_h256 alice; to_h256 carol]
               (to_bytes 30))) ∧
  ledger_allowance (state_after r) (T6 alice) (T6 bob) = 70 - 30.
Proof.
  apply (approve_then_transfer_from
           (P := platform) (D := abi)
           (call 0x095ea7b3 [bob; 70]) (args 0x095ea7b3 [bob; 70]) bob 70
           20000 by_alice
           (call 0x23b872dd [alice; carol; 30]) (args 0x23b872dd [alice; carol; 30])
           carol 30 20000 by_bob store).
  - reflexivity.
  - reflexivity.
  - lia.
  - reflexivity.
  - reflexivity.
  - lia.
  - reflexivity.
  - lia.
  - vm_compute. discriminate.
Defined.

(** [setController(alice)] by [carol], then [mint(bob, 5)] by [carol] and by
    [alice]. *)
Lemma set_controller_hands_minting_over_witness :
  let s1 := state_after (on_store (call 0x92eefe9b [alice]) 5000 by_carol false store) in
  on_store (call 0x40c10f19 [bob; 5]) 5000 by_carol false s1
  = mk_result false (set_err_status Fatal ExitFatal_Other) s1 ∧
  ret (on_store (call 0x40c10f19 [bob; 5]) 5000 by_alice false s1) = true.
Proof.
  split.
  - refine (proj1 (set_controller_hands_minting_over
             (P := platform) (D := abi) (L := spec_ledger)
             (call 0x92eefe9b [alice]) (args 0x92eefe9b [alice]) alice
             5000 by_carol
             (call 0x40c10f19 [bob; 5]) method_id_mint (args 0x40c10f19 [bob; 5])
             5000 by_carol store _ _ _ _ _ _ _) _);
      first [reflexivity | lia | discriminate].
  - refine (proj2 (set_controller_hands_minting_over
             (P := platform) (D := abi) (L := spec_ledger)
             (call 0x92eefe9b [alice]) (args 0x92eefe9b [alice]) alice
             5000 by_carol
             (call 0x40c10f19 [bob; 5]) method_id_mint (args 0x40c10f19 [bob; 5])
             5000 by_alice store _ _ _ _ _ _ _) _ _ bob 5 _);
      first [reflexivity | lia].
Defined.

End MoreSamples.
